(** * WebDAV over an R2 bucket: the handlers of [src/handlers/webdavHandler.ts]

    A shallow embedding of the request handlers, the R2 bucket they talk
    to, and the properties the specification states about them. *)

From Stdlib Require Import String Ascii List.
From stdpp Require Import base option strings gmap fin_maps sorting pretty.

Import ListNotations.
Local Open Scope string_scope.
Local Open Scope list_scope.

(** ** JavaScript string helpers used by the handlers *)

Module Js.

(** [s.startsWith(p)] *)
Definition startsWith (s p : string) : bool := String.prefix p s.

(** [s.endsWith(p)] *)
Definition endsWith (s p : string) : bool :=
  String.prefix (String.rev p) (String.rev s).

(** [s.includes(p)] *)
Fixpoint includes (s p : string) : bool :=
  String.prefix p s ||
  match s with
  | EmptyString => false
  | String _ s' => includes s' p
  end.

(** [s.slice(n)] *)
Fixpoint slice (n : nat) (s : string) : string :=
  match n, s with
  | O, _ => s
  | S n', String _ s' => slice n' s'
  | S _, EmptyString => EmptyString
  end.

(** The text before the first occurrence of the character [d] in [s]
    and, when there is one, the text after it. *)
Fixpoint cut_at (d : ascii) (s : string) : string * option string :=
  match s with
  | EmptyString => (EmptyString, None)
  | String c s' =>
      if Ascii.eqb c d then (EmptyString, Some s')
      else let '(hd, tl) := cut_at d s' in (String c hd, tl)
  end.

(** [s.split("/").pop()]: the text after the last ["/"], all of [s]
    when it has none. *)
Fixpoint split_pop (s : string) : string :=
  match s with
  | EmptyString => EmptyString
  | String c s' =>
      if Ascii.eqb c "/" then split_pop s'
      else if includes s' "/" then split_pop s' else s
  end.

(** [s.split(d)] for a one-character separator [d]. *)
Fixpoint split (d : ascii) (s : string) : list string :=
  match s with
  | EmptyString => [EmptyString]
  | String c s' =>
      if Ascii.eqb c d then EmptyString :: split d s'
      else match split d s' with
           | hd :: tl => String c hd :: tl
           | [] => [String c EmptyString]
           end
  end.

(** The one-character string holding a double quote. *)
Definition dquote : string := String (ascii_of_nat 34) EmptyString.

(** [a || b] on strings: the empty string is falsy. *)
Definition or_else (a b : string) : string :=
  match a with EmptyString => b | _ => a end.

(** [a || b] where [a] may be [null] or [undefined]. *)
Definition opt_or_else (a : option string) (b : string) : string :=
  match a with Some (String c s) => String c s | _ => b end.

(** [a ?? b] *)
Definition nullish (a : option string) (b : string) : string :=
  match a with Some s => s | None => b end.

(** ASCII lower-casing, as [Headers] applies to header names. *)
Definition lower_ascii (c : ascii) : ascii :=
  let n := nat_of_ascii c in
  if ((65 <=? n) && (n <=? 90))%nat then ascii_of_nat (n + 32) else c.

Fixpoint toLowerCase (s : string) : string :=
  match s with
  | EmptyString => EmptyString
  | String c s' => String (lower_ascii c) (toLowerCase s')
  end.

End Js.

(** ** Data model: requests, responses and stored objects *)

Abbreviation bytes := (list Byte.byte).

Module Request.
(** [headers] is keyed by the lower-cased header name, as a [Headers]
    object keeps them. *)
Record t := mk {
  method : string;
  url : string;
  headers : gmap string string;
  body : bytes
}.

(** [request.headers.get(name)] *)
Definition headers_get (r : t) (name : string) : option string :=
  headers r !! Js.toLowerCase name.
End Request.
Abbreviation Request := Request.t.

Inductive BodyInit :=
| BodyNull
| BodyText (text : string)
| BodyStream (content : bytes).

Module Response.
(** [headers] are the headers the handler gives the constructor;
    [sent_headers] below are those of the response built from them. *)
Record t := mk {
  body : BodyInit;
  status : nat;
  headers : list (string * string)
}.

(** [headers.has(name)], names compared without case. *)
Definition has_header (name : string) (headers : list (string * string)) : bool :=
  existsb (λ header, String.eqb (Js.toLowerCase header.1) (Js.toLowerCase name)) headers.

(** The headers of the response as built: a body given as a string
    brings [Content-Type: text/plain;charset=UTF-8] when the handler gave
    no content type; a null body or a stream brings none. *)
Definition sent_headers (r : t) : list (string * string) :=
  match body r with
  | BodyText _ =>
      if has_header "Content-Type" (headers r) then headers r
      else headers r ++ [("Content-Type", "text/plain;charset=UTF-8")]
  | _ => headers r
  end.
End Response.
Abbreviation Response := Response.t.

Record R2HTTPMetadata := { contentType : option string }.

Module R2Object.
(** [displayname] is not a field the store fills in: [handleDirectory]
    reads it from what the listing yields. *)
Record t := mk {
  key : string;
  body : bytes;
  size : nat;
  etag : string;
  uploaded : nat;
  httpMetadata : option R2HTTPMetadata;
  customMetadata : option (gmap string string);
  displayname : option string
}.
End R2Object.
Abbreviation R2Object := R2Object.t.

Record R2PutOptions := {
  put_httpMetadata : option R2HTTPMetadata;
  put_customMetadata : option (gmap string string)
}.

Record R2ListOptions := {
  list_prefix : string;
  list_delimiter : option ascii;
  list_maxKeys : option nat
}.

Module R2Objects.
Record t := mk {
  objects : list R2Object;
  delimitedPrefixes : list string
}.
End R2Objects.
Abbreviation R2Objects := R2Objects.t.

(** The entries of a directory page and of a multistatus answer. *)
Record Item := { name : string; href : string }.

Record WebDAVProps := {
  props_displayname : string;
  creationdate : string;
  getcontentlength : string;
  getcontenttype : string;
  getetag : string;
  getlastmodified : string;
  resourcetype : string
}.

(** ** The bucket

    The state the handlers run against: the stored objects by key, the
    current time, and the store errors still to come.  Each call to the
    store consumes the head of [faults]: [Some msg] makes the call throw
    [msg] and leave the objects alone, [None] (or an exhausted list) lets
    it through. *)

Module R2Bucket.
Record t := mk {
  contents : gmap string R2Object;
  clock : nat;
  faults : list (option string)
}.
End R2Bucket.
Abbreviation R2Bucket := R2Bucket.t.

Record Env := { BUCKET : R2Bucket; BUCKET_NAME : string }.

(** ** Asynchronous computations that may throw *)

Inductive Completion (A : Type) :=
| Normal (value : A)
| Throw (message : string).
Arguments Normal {A} value.
Arguments Throw {A} message.

Definition Promise (A : Type) : Type := R2Bucket → Completion A * R2Bucket.

Global Instance Promise_ret : MRet Promise := λ A a b, (Normal a, b).

Global Instance Promise_bind : MBind Promise := λ A B f m b,
  match m b with
  | (Normal a, b') => f a b'
  | (Throw msg, b') => (Throw msg, b')
  end.

Definition throw {A} (msg : string) : Promise A := λ b, (Throw msg, b).

(** [try { m } catch (error) { h error.message }] *)
Definition try_catch {A} (m : Promise A) (h : string → Promise A) : Promise A :=
  λ b, match m b with
       | (Normal a, b') => (Normal a, b')
       | (Throw msg, b') => h msg b'
       end.

(** A synchronous expression that may throw, awaited. *)
Definition lift {A} (c : Completion A) : Promise A := λ b, (c, b).

(** [new Date()] *)
Definition Date_now : Promise nat := λ b, (Normal (R2Bucket.clock b), b).

(** ** The store binding: [head], [get], [put], [delete], [list] *)

(** What the platform provides and the handlers use: the digest the
    store reports as an object's ETag, [Date.prototype.toUTCString], and
    the [URL] constructor, which throws on a string that is no absolute
    URL and otherwise gives the URL (kept as its serialised form); and the
    messages of two errors the engine throws: the [TypeError] of the
    [Response] constructor given a body with a null-body status, and the
    [ReferenceError] of reading an identifier that nothing declares. *)
Class Runtime := {
  etag_of : bytes → string;
  toUTCString : nat → string;
  URL_new : string → Completion string;
  null_body_error : string;
  not_defined_error : string → string
}.

(** The statuses a response cannot carry a body with. *)
Definition null_body_status (status : nat) : bool :=
  (status =? 101)%nat || (status =? 204)%nat || (status =? 205)%nat ||
  (status =? 304)%nat.

(** The constructor call [new Response(body, { status, headers })]: it
    throws when a body comes with a null-body status. *)
Definition Response_new `{!Runtime} (body : BodyInit) (status : nat)
    (headers : list (string * string)) : Completion Response :=
  match body with
  | BodyNull => Normal (Response.mk body status headers)
  | _ =>
      if null_body_status status then Throw null_body_error
      else Normal (Response.mk body status headers)
  end.

(** [new Response(...)] where the handlers build their answer. *)
Definition new_Response `{!Runtime} (body : BodyInit) (status : nat)
    (headers : list (string * string)) : Promise Response :=
  lift (Response_new body status headers).

(** Reading an identifier that nothing declares or imports. *)
Definition ReferenceError `{!Runtime} {A} (identifier : string) : Promise A :=
  throw (not_defined_error identifier).

Section Store.

Context `{!Runtime}.

(** One call to the store: throw the scheduled fault, or run [op] on
    the stored objects. *)
Definition store_call {A} (op : gmap string R2Object → nat → A * gmap string R2Object)
  : Promise A :=
  λ b,
    let run fs :=
      let '(a, objs) := op (R2Bucket.contents b) (R2Bucket.clock b) in
      (Normal a, R2Bucket.mk objs (R2Bucket.clock b) fs) in
    match R2Bucket.faults b with
    | Some msg :: fs =>
        (Throw msg, R2Bucket.mk (R2Bucket.contents b) (R2Bucket.clock b) fs)
    | None :: fs => run fs
    | [] => run []
    end.

(** [bucket.head(key)] *)
Definition bucket_head (key : string) : Promise (option R2Object) :=
  store_call (λ objs _, (objs !! key, objs)).

(** [bucket.get(key)] *)
Definition bucket_get (key : string) : Promise (option R2Object) :=
  store_call (λ objs _, (objs !! key, objs)).

Definition stored_object (key : string) (value : bytes) (options : R2PutOptions)
    (now : nat) : R2Object :=
  R2Object.mk key value (length value) (etag_of value) now
    (put_httpMetadata options) (put_customMetadata options) None.

(** [bucket.put(key, value, options)] *)
Definition bucket_put (key : string) (value : bytes) (options : R2PutOptions)
  : Promise unit :=
  store_call (λ objs now, (tt, <[key := stored_object key value options now]> objs)).

(** [bucket.delete(key)]: no error when the key is absent. *)
Definition bucket_delete (key : string) : Promise unit :=
  store_call (λ objs _, (tt, delete key objs)).

(** Listing: the keys in lexicographic order, those that start with the
    prefix; with a delimiter, a key that has the delimiter after the
    prefix is folded into the prefix up to and including it, reported
    once; at most [maxKeys] results in all. *)
Inductive ListEntry :=
| EntryObject (object : R2Object)
| EntryPrefix (p : string).

Definition key_le (a b : string * R2Object) : Prop := String.le a.1 b.1.

Global Instance key_le_dec : RelDecision key_le.
Proof. intros a b. unfold key_le. apply _. Defined.

Definition matching (pfx : string) (objs : gmap string R2Object)
  : list (string * R2Object) :=
  filter (λ kv, Js.startsWith kv.1 pfx = true)
         (merge_sort key_le (map_to_list objs)).

Fixpoint group_entries (pfx : string) (delim : option ascii) (seen : list string)
    (kvs : list (string * R2Object)) : list ListEntry :=
  match kvs with
  | [] => []
  | (k, o) :: rest =>
      match delim with
      | None => EntryObject o :: group_entries pfx delim seen rest
      | Some d =>
          match Js.cut_at d (Js.slice (String.length pfx) k) with
          | (hd, Some _) =>
              let p := (pfx ++ hd ++ String d EmptyString)%string in
              if bool_decide (p ∈ seen) then group_entries pfx delim seen rest
              else EntryPrefix p :: group_entries pfx delim (p :: seen) rest
          | (_, None) => EntryObject o :: group_entries pfx delim seen rest
          end
      end
  end.

Definition limit_entries (maxKeys : option nat) (es : list ListEntry) : list ListEntry :=
  match maxKeys with
  | Some n => take n es
  | None => es
  end.

Definition entry_objects (es : list ListEntry) : list R2Object :=
  omap (λ e, match e with EntryObject o => Some o | EntryPrefix _ => None end) es.

Definition entry_prefixes (es : list ListEntry) : list string :=
  omap (λ e, match e with EntryPrefix p => Some p | EntryObject _ => None end) es.

Definition list_objects (options : R2ListOptions) (objs : gmap string R2Object)
  : R2Objects :=
  let es := limit_entries (list_maxKeys options)
              (group_entries (list_prefix options) (list_delimiter options) []
                 (matching (list_prefix options) objs)) in
  R2Objects.mk (entry_objects es) (entry_prefixes es).

(** [bucket.list(options)] *)
Definition bucket_list (options : R2ListOptions) : Promise R2Objects :=
  store_call (λ objs _, (list_objects options objs, objs)).

End Store.

(** The store lets its next [n] calls through. *)
Definition no_faults (n : nat) (bucket : R2Bucket) : bool :=
  forallb (λ fault, match fault with None => true | Some _ => false end)
          (take n (R2Bucket.faults bucket)).

(** The message the store's next call throws, if it throws. *)
Definition next_fault (bucket : R2Bucket) : option string :=
  match R2Bucket.faults bucket with
  | fault :: _ => fault
  | [] => None
  end.

(** ** What the handlers import

    [webdavHandler.ts] imports [listAll], [fromR2Object],
    [make_resource_path] and [generatePropfindResponse] from
    [../utils/webdavUtils] and [generateHTML], [generateErrorHTML] from
    [../utils/templates].  The handlers are written over any
    implementation of these.  [listAll] is an asynchronous generator: its
    consumers either see every object it yields or the error it throws, so
    it is taken as a computation of the whole list. *)
Class Utils := {
  make_resource_path : Request → string;
  listAll : string → Promise (list R2Object);
  fromR2Object : R2Object → WebDAVProps;
  generatePropfindResponse : string → list WebDAVProps → string;
  generateHTML : string → list Item → string;
  generateErrorHTML : string → string → string
}.

(** ** The handlers *)

Section Handlers.

Context `{!Runtime} `{!Utils}.

Definition SUPPORT_METHODS : list string :=
  ["OPTIONS"; "PROPFIND"; "MKCOL"; "GET"; "HEAD"; "PUT"; "COPY"; "MOVE"; "DELETE"].
Definition DAV_CLASS : string := "1, 2".

Definition html_headers : list (string * string) :=
  [("Content-Type", "text/html; charset=utf-8")].
Definition xml_headers : list (string * string) :=
  [("Content-Type", "application/xml; charset=utf-8")].

Definition handleOptions : Completion Response :=
  Response_new BodyNull 200
    [("Allow", String.concat ", " SUPPORT_METHODS);
     ("DAV", DAV_CLASS);
     ("Access-Control-Allow-Methods", String.concat ", " SUPPORT_METHODS);
     ("Access-Control-Allow-Origin", "*");
     ("Access-Control-Allow-Headers",
      "Authorization, Content-Type, Depth, Overwrite, Destination, Range");
     ("Access-Control-Expose-Headers",
      "Content-Type, Content-Length, DAV, ETag, Last-Modified, Location, Date, Content-Range");
     ("Access-Control-Allow-Credentials", "true");
     ("Access-Control-Max-Age", "86400")].

(** The four metadata headers of a HEAD or GET answer. *)
Definition object_headers (object : R2Object) : list (string * string) :=
  [("Content-Type",
    Js.nullish (R2Object.httpMetadata object ≫= contentType) "application/octet-stream");
   ("Content-Length", pretty (R2Object.size object));
   ("ETag", R2Object.etag object);
   ("Last-Modified", toUTCString (R2Object.uploaded object))].

Definition handleHead (request : Request) : Promise Response :=
  let resource_path := make_resource_path request in
  object ← bucket_head resource_path;
  match object with
  | None => new_Response BodyNull 404 []
  | Some object => new_Response BodyNull 200 (object_headers object)
  end.

Definition parent_item : Item := {| name := "📁 .."; href := "../" |}.

(** [object.customMetadata?.resourcetype === "collection"] *)
Definition isDirectory (object : R2Object) : bool :=
  bool_decide
    (R2Object.customMetadata object ≫= (.!! "resourcetype") = Some "collection").

Definition object_item (object : R2Object) : Item :=
  let displayName :=
    Js.or_else
      (Js.opt_or_else (R2Object.displayname object) (Js.split_pop (R2Object.key object)))
      (R2Object.key object) in
  {| name := ((if isDirectory object then "📁 " else "📄 ") ++ displayName)%string;
     href := ("/" ++ R2Object.key object)%string |}.

(** The body of the [for await] loop, over the objects yielded. *)
Fixpoint push_items (resource_path : string) (items : list Item)
    (yielded : list R2Object) : list Item :=
  match yielded with
  | [] => items
  | object :: rest =>
      if decide (R2Object.key object = resource_path)
      then push_items resource_path items rest
      else push_items resource_path (items ++ [object_item object]) rest
  end.

Definition handleDirectory (resource_path : string) : Promise Response :=
  let items := if decide (resource_path ≠ "") then [parent_item] else [] in
  listed ← try_catch
    (yielded ← listAll resource_path;
     mret (inl (push_items resource_path items yielded)))
    (λ message,
       response ← new_Response
         (BodyText (generateErrorHTML "Error listing directory contents" message))
         500 html_headers;
       mret (inr response));
  match listed with
  | inr response => mret response
  | inl items =>
      (* [bucketName] is neither declared nor imported in the file, and
         [BUCKET_NAME] of [handleWebDAV] is not passed down *)
      bucketName ← ReferenceError "bucketName";
      let page :=
        generateHTML ("WebDAV File Browser[" ++ bucketName ++ "]")%string items in
      new_Response (BodyText page) 200 html_headers
  end.

Definition handleFile (resource_path : string) : Promise Response :=
  try_catch
    (object ← bucket_get resource_path;
     match object with
     | None => new_Response (BodyText "Not Found") 404 []
     | Some object =>
         new_Response (BodyStream (R2Object.body object)) 200 (object_headers object)
     end)
    (λ message,
       new_Response (BodyText (generateErrorHTML "Error retrieving file" message))
               500 html_headers).

Definition handleGet (request : Request) : Promise Response :=
  let resource_path := make_resource_path request in
  if Js.endsWith (Request.url request) "/"
  then handleDirectory resource_path
  else handleFile resource_path.

Definition handlePut (request : Request) : Promise Response :=
  let resource_path := make_resource_path request in
  try_catch
    (let body := Request.body request in
     _ ← bucket_put resource_path body
           {| put_httpMetadata :=
                Some {| contentType :=
                          Some (Js.opt_or_else (Request.headers_get request "Content-Type")
                                  "application/octet-stream") |};
              put_customMetadata := None |};
     new_Response (BodyText "Created") 201 [])
    (λ message,
       new_Response (BodyText (generateErrorHTML "Error uploading file" message))
               500 html_headers).

(** The three phrases [handleDelete] looks for in an error message. *)
Definition not_found_shaped (errorMessage : string) : bool :=
  Js.includes errorMessage "not found" ||
  Js.includes errorMessage "does not exist" ||
  Js.includes errorMessage "404".

Definition handleDelete (request : Request) : Promise Response :=
  let resource_path := make_resource_path request in
  try_catch
    (_ ← bucket_delete resource_path;
     new_Response BodyNull 204 [])
    (λ errorMessage,
       if not_found_shaped errorMessage
       then new_Response BodyNull 204 []
       else new_Response BodyNull 500 []).

Definition collection_metadata : gmap string string :=
  {[ "resourcetype" := "collection" ]}.

Definition normalizedPath (resource_path : string) : string :=
  if Js.endsWith resource_path "/" then resource_path
  else (resource_path ++ "/")%string.

Definition markerFileKey (resource_path : string) : string :=
  (normalizedPath resource_path ++ "_$folder$")%string.

(** The options of the [put] that writes the marker. *)
Definition marker_options : R2PutOptions :=
  {| put_httpMetadata := None; put_customMetadata := Some collection_metadata |}.

(** The loop of [ensureParentDirectories] over the parts it visits:
    [parentPath] grows by the part, a slash and the marker name, and a
    marker is put there unless [head] finds an object. *)
Fixpoint ensure_parents (parentPath : string) (parts : list string) : Promise unit :=
  match parts with
  | [] => mret tt
  | part :: rest =>
      let parentPath := (parentPath ++ part ++ "/" ++ "_$folder$")%string in
      exists_ ← bucket_head parentPath;
      _ ← match exists_ with
          | Some _ => mret tt
          | None => bucket_put parentPath [] marker_options
          end;
      ensure_parents parentPath rest
  end.

(** [path.split("/").filter(Boolean)] *)
Definition path_parts (path : string) : list string :=
  filter (λ part, part ≠ "") (Js.split "/" path).

(** The helper the source keeps beside [handleMkcol]; its call there is
    commented out. *)
Definition ensureParentDirectories (path : string) : Promise unit :=
  let parts := path_parts path in
  if (length parts <=? 1)%nat then mret tt
  else ensure_parents "" (take (length parts - 1) parts).

Definition handleMkcol (request : Request) : Promise Response :=
  let resource_path := make_resource_path request in
  if decide (resource_path = "")
  then new_Response (BodyText "Method Not Allowed") 405 []
  else
    try_catch
      (existing ← bucket_head (markerFileKey resource_path);
       match existing with
       | Some _ => new_Response (BodyText "Alraedy Exist") 201 []
       | None =>
           _ ← bucket_put (markerFileKey resource_path) [] marker_options;
           new_Response (BodyText "Created") 201 []
       end)
      (λ message,
         new_Response (BodyText (generateErrorHTML "Error creating collection" message))
                 500 html_headers).

(** The entry [handlePropfind] makes up for a folder at depth 0. *)
Definition implicit_folder (resource_path : string) (created modified : nat)
  : WebDAVProps :=
  {| props_displayname := Js.or_else (Js.split_pop resource_path) resource_path;
     creationdate := toUTCString created;
     getcontentlength := "0";
     getcontenttype := "";
     getetag := (Js.dquote ++ "implicit-folder-" ++ resource_path ++ Js.dquote)%string;
     getlastmodified := toUTCString modified;
     resourcetype := "collection" |}.

(** The test on the result of the depth-0 query:
    [(listResult.delimitedPrefixes?.length || 0) > 0 ||
     (listResult.objects?.length || 0) > 0]. *)
Definition folderExists (listResult : R2Objects) : bool :=
  (0 <? length (R2Objects.delimitedPrefixes listResult))%nat ||
  (0 <? length (R2Objects.objects listResult))%nat.

(** The query [handlePropfind] makes at depth 0. *)
Definition probe_options (prefix : string) : R2ListOptions :=
  {| list_prefix := prefix; list_delimiter := Some "/"%char; list_maxKeys := Some 1 |}.

Definition handlePropfind (request : Request) : Promise Response :=
  let resource_path := make_resource_path request in
  let depth := Js.opt_or_else (Request.headers_get request "Depth") "infinity" in
  let finish props :=
    let xml := generatePropfindResponse resource_path props in
    new_Response (BodyText xml) 207 xml_headers in
  try_catch
    (if decide (depth ≠ "0") then
       yielded ← listAll resource_path;
       finish (map fromR2Object yielded)
     else
       let prefix := resource_path in
       let listOptions := probe_options prefix in
       listResult ← bucket_list listOptions;
       if folderExists listResult then
         created ← Date_now;
         modified ← Date_now;
         finish [implicit_folder resource_path created modified]
       else
         new_Response (BodyText "Not Found") 404 [])
    (λ message,
       new_Response (BodyText (generateErrorHTML "Error in PROPFIND" message))
               500 xml_headers).

(** [new Request(url)] *)
Definition Request_new (url : string) : Request := Request.mk "GET" url ∅ [].

(** [!destinationHeader]: the header is absent or empty. *)
Definition missing (header : option string) : bool :=
  match header with
  | None | Some EmptyString => true
  | Some _ => false
  end.

(** The options of the [put] that writes a copy. *)
Definition copy_options (sourceObject : R2Object) : R2PutOptions :=
  {| put_httpMetadata := R2Object.httpMetadata sourceObject;
     put_customMetadata := R2Object.customMetadata sourceObject |}.

Definition handleCopy (request : Request) : Promise Response :=
  let sourcePath := make_resource_path request in
  let destinationHeader := Request.headers_get request "Destination" in
  if missing destinationHeader then
    new_Response (BodyText "Bad Request: Destination header is missing") 400 []
  else
    destinationUrl ← lift (URL_new (default "" destinationHeader));
    let destinationPath := make_resource_path (Request_new destinationUrl) in
    try_catch
      (sourceObject ← bucket_get sourcePath;
       match sourceObject with
       | None => new_Response (BodyText "Not Found") 404 []
       | Some sourceObject =>
           _ ← bucket_put destinationPath (R2Object.body sourceObject)
                 (copy_options sourceObject);
           new_Response (BodyText "Created") 201 []
       end)
      (λ message,
         new_Response (BodyText (generateErrorHTML "Error copying file" message))
                 500 html_headers).

Definition handleMove (request : Request) : Promise Response :=
  let sourcePath := make_resource_path request in
  let destinationHeader := Request.headers_get request "Destination" in
  if missing destinationHeader then
    new_Response (BodyText "Bad Request: Destination header is missing") 400 []
  else
    destinationUrl ← lift (URL_new (default "" destinationHeader));
    let destinationPath := make_resource_path (Request_new destinationUrl) in
    try_catch
      (sourceObject ← bucket_get sourcePath;
       match sourceObject with
       | None => new_Response (BodyText "Not Found") 404 []
       | Some sourceObject =>
           _ ← bucket_put destinationPath (R2Object.body sourceObject)
                 (copy_options sourceObject);
           _ ← bucket_delete sourcePath;
           new_Response (BodyText "No Content") 204 []
       end)
      (λ message,
         new_Response (BodyText (generateErrorHTML "Error moving file" message))
                 500 html_headers).

(** The [switch] of [handleWebDAV]. *)
Definition dispatch (request : Request) : Promise Response :=
  let method := Request.method request in
  if String.eqb method "OPTIONS" then lift handleOptions
  else if String.eqb method "HEAD" then handleHead request
  else if String.eqb method "GET" then handleGet request
  else if String.eqb method "PUT" then handlePut request
  else if String.eqb method "DELETE" then handleDelete request
  else if String.eqb method "MKCOL" then handleMkcol request
  else if String.eqb method "PROPFIND" then handlePropfind request
  else if String.eqb method "COPY" then handleCopy request
  else if String.eqb method "MOVE" then handleMove request
  else new_Response (BodyText "Method Not Allowed") 405
               [("Allow", String.concat ", " SUPPORT_METHODS); ("DAV", DAV_CLASS)].

(** The entry point: the answer, and the bucket as the request leaves
    it.  The [catch] turns whatever a handler lets through into a 500; a
    500 may carry a body, so building that answer does not throw. *)
Definition handleWebDAV (request : Request) (env : Env) : Response * R2Bucket :=
  match dispatch request (BUCKET env) with
  | (Normal response, bucket) => (response, bucket)
  | (Throw message, bucket) =>
      (Response.mk (BodyText (generateErrorHTML "Internal Server Error" message))
         500 html_headers,
       bucket)
  end.

End Handlers.

(** ** The utilities, after the specification

    The modules the handlers import are not part of the sources at hand.
    The definitions below follow the specification's description of them;
    they give the theorems their concrete instances. *)

Module SpecUtils.

(** The path of an absolute URL: what follows the authority, from its
    first ["/"], without query or fragment. *)
Definition after_scheme (url : string) : string :=
  match String.index 0 "://" url with
  | Some i => Js.slice (i + 3) url
  | None => url
  end.

Fixpoint until_query (s : string) : string :=
  match s with
  | EmptyString => EmptyString
  | String c s' =>
      if Ascii.eqb c "?" || Ascii.eqb c "#" then EmptyString
      else String c (until_query s')
  end.

Definition pathname (url : string) : string :=
  match Js.cut_at "/" (after_scheme url) with
  | (_, Some path) => until_query (String "/" path)
  | (_, None) => "/"
  end.

Definition hex_digit (c : ascii) : option nat :=
  let n := nat_of_ascii c in
  if ((48 <=? n) && (n <=? 57))%nat then Some (n - 48)
  else if ((65 <=? n) && (n <=? 70))%nat then Some (n - 55)
  else if ((97 <=? n) && (n <=? 102))%nat then Some (n - 87)
  else None.

(** Percent-decoding: [%XY] becomes the byte with hexadecimal code
    [XY]; anything else is kept. *)
Fixpoint percent_decode (s : string) : string :=
  match s with
  | String "%" (String a (String b rest as tl) as tl') =>
      match hex_digit a, hex_digit b with
      | Some h, Some l => String (ascii_of_nat (16 * h + l)) (percent_decode rest)
      | _, _ => String "%" (percent_decode tl')
      end
  | String c s' => String c (percent_decode s')
  | EmptyString => EmptyString
  end.

(** Runs of ["/"] become one. *)
Fixpoint collapse_slashes (s : string) : string :=
  match s with
  | String "/" (String "/" _ as s') => collapse_slashes s'
  | String c s' => String c (collapse_slashes s')
  | EmptyString => EmptyString
  end.

Definition drop_trailing_slash (s : string) : string :=
  if Js.endsWith s "/" then String.substring 0 (String.length s - 1) s else s.

(** Modelled from the spec: [make_resource_path] of
    [utils/webdavUtils], the Path Resolver of section 4.1.  The key is
    the request URL's path, percent-decoded, duplicate slashes collapsed,
    without the leading slash and without a single trailing slash; the
    handler is mounted at the root, so there is no mount prefix to
    strip. *)
Definition make_resource_path (request : Request) : string :=
  drop_trailing_slash
    (Js.slice 1 (collapse_slashes (percent_decode (pathname (Request.url request))))).

(** The reserved suffix the specification gives the collection marker. *)
Definition is_marker (object : R2Object) : bool :=
  Js.endsWith (R2Object.key object) "/_marker" ||
  String.eqb (R2Object.key object) "_marker".

(** The entry a folded nested path is listed as. *)
Definition folded_collection (p : string) : R2Object :=
  R2Object.mk p [] 0 "" 0 None (Some {[ "resourcetype" := "collection" ]}) None.

(** Modelled from the spec: [listAll] of [utils/webdavUtils], the
    Listing Engine of section 4.3 at depth 1.  A prefix and delimiter
    query for the direct children of the collection; the collection's
    own key and the collection markers are left out, and each nested
    path is folded into one collection entry.  A store error aborts the
    listing. *)
Definition listAll `{!Runtime} (collectionKey : string) : Promise (list R2Object) :=
  let prefix :=
    if decide (collectionKey = "") then "" else (collectionKey ++ "/")%string in
  result ← bucket_list
    {| list_prefix := prefix; list_delimiter := Some "/"%char; list_maxKeys := None |};
  mret (filter (λ object, R2Object.key object ≠ collectionKey ∧ is_marker object = false)
          (R2Objects.objects result)
        ++ map folded_collection (R2Objects.delimitedPrefixes result)).

(** Modelled from the spec: [fromR2Object] of [utils/webdavUtils], the
    mapping of a listed object to its WebDAV property entry (section 4.4,
    PROPFIND). *)
Definition fromR2Object `{!Runtime} (object : R2Object) : WebDAVProps :=
  {| props_displayname := Js.split_pop (R2Object.key object);
     creationdate := toUTCString (R2Object.uploaded object);
     getcontentlength := pretty (R2Object.size object);
     getcontenttype := Js.nullish (R2Object.httpMetadata object ≫= contentType) "";
     getetag := R2Object.etag object;
     getlastmodified := toUTCString (R2Object.uploaded object);
     resourcetype :=
       Js.nullish (R2Object.customMetadata object ≫= (.!! "resourcetype")) "" |}.

(** Escaping of the characters that are markup in HTML and XML. *)
Fixpoint escape (s : string) : string :=
  match s with
  | EmptyString => EmptyString
  | String c s' =>
      ((if Ascii.eqb c "&" then "&amp;"
        else if Ascii.eqb c "<" then "&lt;"
        else if Ascii.eqb c ">" then "&gt;"
        else if Ascii.eqb c (ascii_of_nat 34) then "&quot;"
        else String c EmptyString) ++ escape s')%string
  end.

Definition tag (name content : string) : string :=
  ("<" ++ name ++ ">" ++ content ++ "</" ++ name ++ ">")%string.

Definition render_props (p : WebDAVProps) : string :=
  tag "D:response"
    (tag "D:displayname" (escape (props_displayname p)) ++
     tag "D:creationdate" (escape (creationdate p)) ++
     tag "D:getcontentlength" (escape (getcontentlength p)) ++
     tag "D:getcontenttype" (escape (getcontenttype p)) ++
     tag "D:getetag" (escape (getetag p)) ++
     tag "D:getlastmodified" (escape (getlastmodified p)) ++
     tag "D:resourcetype" (escape (resourcetype p)))%string.

(** Modelled from the spec: [generatePropfindResponse] of
    [utils/webdavUtils], [renderMultistatus] of section 4.5: one
    response element per entry, user-controlled strings escaped,
    well-formed also for no entries. *)
Definition generatePropfindResponse (resourceKey : string) (entries : list WebDAVProps)
  : string :=
  tag "D:multistatus"
    (tag "D:href" (escape ("/" ++ resourceKey)) ++
     String.concat "" (map render_props entries))%string.

Definition render_item (item : Item) : string :=
  tag "li" (tag "a" (escape (name item) ++ " " ++ escape (href item)))%string.

(** Modelled from the spec: [generateHTML] of [utils/templates],
    [renderDirectory] of section 4.5: the entries in the order given,
    names and links escaped. *)
Definition generateHTML (title : string) (items : list Item) : string :=
  tag "html"
    (tag "head" (tag "title" (escape title)) ++
     tag "body" (tag "ul" (String.concat "" (map render_item items))))%string.

(** Modelled from the spec: [generateErrorHTML] of [utils/templates],
    [renderError] of section 4.5. *)
Definition generateErrorHTML (title detail : string) : string :=
  tag "html"
    (tag "head" (tag "title" (escape title)) ++
     tag "body" (tag "h1" (escape title) ++ tag "p" (escape detail)))%string.

(** A platform to run examples on: an absolute [http] or [https] URL
    parses to itself and anything else makes [new URL] throw; times
    print as their number, and the ETag is the content's length. *)
Definition runtime : Runtime :=
  {| etag_of := λ content, pretty (length content);
     toUTCString := λ t, pretty t;
     URL_new := λ s,
       if Js.startsWith s "http://" || Js.startsWith s "https://"
       then Normal s else Throw "Invalid URL";
     null_body_error :=
       "Response with null body status (101, 204, 205, or 304) cannot have a body.";
     not_defined_error := λ identifier, (identifier ++ " is not defined")%string |}.

Definition utils : Utils :=
  Build_Utils make_resource_path (@listAll runtime) (@fromR2Object runtime)
    generatePropfindResponse generateHTML generateErrorHTML.

End SpecUtils.

(** ** Concrete requests and buckets *)

Module Scenario.

Definition origin : string := "http://dav.example".

Definition request (method path : string) (headers : list (string * string))
    (body : bytes) : Request :=
  Request.mk method (origin ++ path)%string (list_to_map headers) body.

(** The two bytes of ["hi"]. *)
Definition hi : bytes := [Byte.x68; Byte.x69].

(** A plain-text object as a PUT at time 0 leaves it. *)
Definition file (key : string) (content : bytes) : R2Object :=
  @stored_object SpecUtils.runtime key content
    {| put_httpMetadata := Some {| contentType := Some "text/plain" |};
       put_customMetadata := None |} 0.

(** A bucket holding the given objects, whose store never fails. *)
Definition bucket_with (stored : list R2Object) : R2Bucket :=
  R2Bucket.mk (list_to_map (map (λ object, (R2Object.key object, object)) stored)) 0 [].

Definition env_with (stored : list R2Object) : Env :=
  {| BUCKET := bucket_with stored; BUCKET_NAME := "bucket" |}.

(** The same bucket, whose store throws [message] at its next call. *)
Definition failing_env (stored : list R2Object) (message : string) : Env :=
  {| BUCKET := R2Bucket.mk (R2Bucket.contents (bucket_with stored)) 0 [Some message];
     BUCKET_NAME := "bucket" |}.

(** A bucket holding [a/b.txt], whose store lets two calls through and
    throws at the third. *)
Definition env_failing_third : Env :=
  {| BUCKET :=
       R2Bucket.mk (R2Bucket.contents (bucket_with [file "a/b.txt" hi])) 0
         [None; None; Some "backend unavailable"];
     BUCKET_NAME := "bucket" |}.

(** The entry point over the utilities above. *)
Definition serve (request : Request) (env : Env) : Response * R2Bucket :=
  @handleWebDAV SpecUtils.runtime SpecUtils.utils request env.

(** The environment a request leaves for the next one. *)
Definition after (request : Request) (env : Env) : Env :=
  {| BUCKET := (serve request env).2; BUCKET_NAME := BUCKET_NAME env |}.

Definition get (path : string) : Request := request "GET" path [] [].
Definition delete_ (path : string) : Request := request "DELETE" path [] [].
Definition mkcol (path : string) : Request := request "MKCOL" path [] [].
Definition propfind0 (path : string) : Request :=
  request "PROPFIND" path [("depth", "0")] [].
Definition copy (path destination : string) : Request :=
  request "COPY" path [("destination", destination)] [].
Definition move (path destination : string) : Request :=
  request "MOVE" path [("destination", destination)] [].

End Scenario.

(** * Properties *)

(** ** The JavaScript helpers on examples *)

Example split_pop_file : Js.split_pop "a/b/c.txt" = "c.txt".
Proof. reflexivity. Qed.

Example split_pop_trailing_slash : Js.split_pop "a/b/" = "".
Proof. reflexivity. Qed.

Example endsWith_slash : Js.endsWith "http://h/a/" "/" = true.
Proof. reflexivity. Qed.

Example includes_phrase : Js.includes "object not found" "not found" = true.
Proof. reflexivity. Qed.

Example resolve_encoded :
  SpecUtils.make_resource_path (Scenario.request "GET" "/a%20b//c/" [] []) = "a b/c".
Proof. reflexivity. Qed.

(** ** The store *)

Section StoreFacts.

Context `{!Runtime}.

Lemma store_call_quiet {A} (op : gmap string R2Object → nat → A * gmap string R2Object)
    (bucket : R2Bucket) :
  next_fault bucket = None →
  store_call op bucket =
    (Normal (op (R2Bucket.contents bucket) (R2Bucket.clock bucket)).1,
     R2Bucket.mk (op (R2Bucket.contents bucket) (R2Bucket.clock bucket)).2
       (R2Bucket.clock bucket) (tail (R2Bucket.faults bucket))).
Proof.
  unfold next_fault, store_call. intros Hq.
  destruct (R2Bucket.faults bucket) as [|[msg|] fs]; simpl in *;
    try discriminate; by destruct (op _ _).
Qed.

Lemma store_call_fault {A} (op : gmap string R2Object → nat → A * gmap string R2Object)
    (bucket : R2Bucket) (msg : string) :
  next_fault bucket = Some msg →
  store_call op bucket =
    (Throw msg,
     R2Bucket.mk (R2Bucket.contents bucket) (R2Bucket.clock bucket)
       (tail (R2Bucket.faults bucket))).
Proof.
  unfold next_fault, store_call. intros Hq.
  destruct (R2Bucket.faults bucket) as [|[msg'|] fs]; simpl in *; congruence.
Qed.

(** The keys a listing looks at are those stored that start with the
    prefix. *)
Lemma elem_of_matching pfx objs k o :
  (k, o) ∈ matching pfx objs ↔ objs !! k = Some o ∧ Js.startsWith k pfx = true.
Proof.
  unfold matching. rewrite list_elem_of_filter, merge_sort_Permutation.
  rewrite elem_of_map_to_list. simpl. tauto.
Qed.

Lemma matching_nil pfx objs :
  matching pfx objs = [] ↔
  ∀ k o, objs !! k = Some o → Js.startsWith k pfx = false.
Proof.
  split.
  - intros Hnil k o Hk. destruct (Js.startsWith k pfx) eqn:Hp; [|done].
    assert ((k, o) ∈ matching pfx objs) as Hin by by apply elem_of_matching.
    rewrite Hnil in Hin. by apply not_elem_of_nil in Hin.
  - intros Hnone. destruct (matching pfx objs) as [|[k o] rest] eqn:Hm; [done|].
    assert ((k, o) ∈ matching pfx objs) as Hin by (rewrite Hm; left).
    apply elem_of_matching in Hin as [Hk Hp]. rewrite (Hnone _ _ Hk) in Hp. done.
Qed.

(** Grouping by the delimiter keeps a listing non-empty. *)
Lemma group_entries_nil pfx delim kvs :
  group_entries pfx delim [] kvs = [] ↔ kvs = [].
Proof.
  split; [|by intros ->].
  destruct kvs as [|[k o] rest]; [done|]. simpl.
  destruct delim as [d|]; [|done].
  by destruct (Js.cut_at d (Js.slice (String.length pfx) k)) as [hd [tl|]].
Qed.

(** What [handlePropfind] tests on the result of its one-result query:
    it has an object or a folded prefix exactly when some stored key
    starts with the prefix asked for. *)
Lemma probe_finds pfx objs :
  folderExists (list_objects (probe_options pfx) objs) = true ↔
  ∃ k o, objs !! k = Some o ∧ Js.startsWith k pfx = true.
Proof.
  unfold folderExists, list_objects, probe_options. simpl.
  set (delim := Some "/"%char).
  destruct (group_entries pfx delim [] (matching pfx objs)) as [|e es] eqn:Hg.
  - apply group_entries_nil in Hg. simpl. split; [done|].
    intros (k & o & Hk & Hp). rewrite matching_nil in Hg.
    rewrite (Hg _ _ Hk) in Hp. done.
  - assert (matching pfx objs ≠ []) as Hne.
    { intros Hnil. rewrite Hnil in Hg. done. }
    split.
    + intros _. destruct (matching pfx objs) as [|[k o] rest] eqn:Hm; [done|].
      exists k, o. apply elem_of_matching. rewrite Hm. left.
    + intros _. destruct e; reflexivity.
Qed.

End StoreFacts.

(** ** The handlers *)

(** Unfolds the monad and the store calls of a handler. *)
Ltac run_handler :=
  unfold new_Response, ReferenceError, throw, Response_new, null_body_status,
    mbind, Promise_bind, mret, Promise_ret, lift, try_catch, Date_now,
    bucket_get, bucket_head, bucket_put, bucket_delete, bucket_list, store_call;
  simpl.

(** Unfolds the constructor calls of an answer. *)
Ltac build_responses :=
  unfold new_Response, ReferenceError, throw, lift, Response_new, null_body_status;
  simpl.

Section Dispatch.

Context `{!Runtime} `{!Utils}.

Lemma dispatch_get request :
  Request.method request = "GET" → dispatch request = handleGet request.
Proof. unfold dispatch. by intros ->. Qed.

Lemma dispatch_put request :
  Request.method request = "PUT" → dispatch request = handlePut request.
Proof. unfold dispatch. by intros ->. Qed.

Lemma dispatch_delete request :
  Request.method request = "DELETE" → dispatch request = handleDelete request.
Proof. unfold dispatch. by intros ->. Qed.

Lemma dispatch_mkcol request :
  Request.method request = "MKCOL" → dispatch request = handleMkcol request.
Proof. unfold dispatch. by intros ->. Qed.

Lemma dispatch_propfind request :
  Request.method request = "PROPFIND" → dispatch request = handlePropfind request.
Proof. unfold dispatch. by intros ->. Qed.

Lemma dispatch_copy request :
  Request.method request = "COPY" → dispatch request = handleCopy request.
Proof. unfold dispatch. by intros ->. Qed.

Lemma dispatch_move request :
  Request.method request = "MOVE" → dispatch request = handleMove request.
Proof. unfold dispatch. by intros ->. Qed.

(** A GET whose URL does not end in a slash, against a store that
    answers: 404 without an object at the key, else 200 with the
    object's content and metadata headers. *)
Lemma get_file request env :
  Request.method request = "GET" →
  Js.endsWith (Request.url request) "/" = false →
  next_fault (BUCKET env) = None →
  (handleWebDAV request env).1 =
    match R2Bucket.contents (BUCKET env) !! make_resource_path request with
    | None => Response.mk (BodyText "Not Found") 404 []
    | Some object =>
        Response.mk (BodyStream (R2Object.body object)) 200 (object_headers object)
    end.
Proof.
  intros Hm Hu Hq. unfold handleWebDAV. rewrite (dispatch_get _ Hm).
  unfold handleGet. rewrite Hu.
  unfold handleFile, try_catch, bucket_get, mbind, Promise_bind.
  rewrite (store_call_quiet _ _ Hq). simpl.
  by destruct (R2Bucket.contents (BUCKET env) !! make_resource_path request);
    build_responses.
Qed.

(** PROPFIND with [Depth: 0], its store call going through: the answer
    is decided by [folderExists] on the prefix query for the key. *)
Lemma propfind_depth0_answer request env :
  Request.method request = "PROPFIND" →
  Request.headers_get request "Depth" = Some "0" →
  next_fault (BUCKET env) = None →
  let K := make_resource_path request in
  let now := R2Bucket.clock (BUCKET env) in
  (handleWebDAV request env).1 =
    if folderExists (list_objects (probe_options K) (R2Bucket.contents (BUCKET env)))
    then Response.mk
           (BodyText (generatePropfindResponse K [implicit_folder K now now]))
           207 [("Content-Type", "application/xml; charset=utf-8")]
    else Response.mk (BodyText "Not Found") 404 [].
Proof.
  intros Hm Hd Hq K now. unfold handleWebDAV. rewrite (dispatch_propfind _ Hm).
  unfold handlePropfind. rewrite Hd. simpl Js.opt_or_else.
  rewrite decide_False by (intros Hc; by apply Hc). fold K.
  unfold try_catch, bucket_list, mbind, Promise_bind.
  rewrite (store_call_quiet _ _ Hq). cbn [fst snd].
  by destruct (folderExists _); build_responses.
Qed.

(** A PUT that answers 201 has stored an object at its key. *)
Lemma put_stored request env :
  Request.method request = "PUT" →
  Response.status (handleWebDAV request env).1 = 201 →
  is_Some (R2Bucket.contents (handleWebDAV request env).2 !! make_resource_path request).
Proof.
  intros Hm. unfold handleWebDAV. rewrite (dispatch_put _ Hm). unfold handlePut.
  destruct env as [[objs now fs] nm]. run_handler.
  destruct fs as [|[m1|] fs]; simpl; try discriminate; intros _.
  all: rewrite lookup_insert_eq; by eexists.
Qed.

End Dispatch.

Section Claims.

Context `{!Runtime} `{!Utils}.

(** C1 fails on the code.  A GET whose URL ends in a slash is never
    answered with the 200 page: when the listing of the key goes through,
    building the page title reads [bucketName], which nothing declares,
    the [ReferenceError] leaves [handleDirectory] outside its [try], and the
    entry point's catch-all answers 500 with that error's message; when the
    listing throws, the answer is the 500 of the claim's last clause. *)
Theorem get_collection_answers_500 request env :
  Request.method request = "GET" →
  Js.endsWith (Request.url request) "/" = true →
  match listAll (make_resource_path request) (BUCKET env) with
  | (Normal yielded, bucket) =>
      handleWebDAV request env =
        (Response.mk
           (BodyText (generateErrorHTML "Internal Server Error"
                        (not_defined_error "bucketName")))
           500 [("Content-Type", "text/html; charset=utf-8")],
         bucket)
  | (Throw message, bucket) =>
      handleWebDAV request env =
        (Response.mk
           (BodyText (generateErrorHTML "Error listing directory contents" message))
           500 [("Content-Type", "text/html; charset=utf-8")],
         bucket)
  end.
Proof.
  intros Hm Hu. unfold handleWebDAV.
  rewrite (dispatch_get _ Hm). unfold handleGet. rewrite Hu.
  unfold handleDirectory. run_handler.
  by destruct (listAll (make_resource_path request) (BUCKET env))
    as [[yielded|message] bucket].
Qed.

(** C4 (amended). A COPY or MOVE whose [Destination] header is missing
    (absent or empty) is answered 400; one whose [Destination] the URL
    constructor rejects is answered 500, through the catch-all of the
    entry point.  In both cases the bucket is left exactly as it was: the
    store is not called at all. *)
Theorem copy_move_destination request env :
  Request.method request = "COPY" ∨ Request.method request = "MOVE" →
  (missing (Request.headers_get request "Destination") = true →
   handleWebDAV request env =
     (Response.mk (BodyText "Bad Request: Destination header is missing") 400 [],
      BUCKET env)) ∧
  (∀ d message,
     Request.headers_get request "Destination" = Some d →
     d ≠ "" →
     URL_new d = Throw message →
     handleWebDAV request env =
       (Response.mk (BodyText (generateErrorHTML "Internal Server Error" message))
          500 html_headers,
        BUCKET env)).
Proof.
  intros Hm. unfold handleWebDAV.
  assert (dispatch request = handleCopy request ∨ dispatch request = handleMove request)
    as [-> | ->].
  { destruct Hm as [Hm|Hm]; [left; by apply dispatch_copy|right; by apply dispatch_move]. }
  all: unfold handleCopy, handleMove; split.
  all: try (intros ->; reflexivity).
  all: intros d message -> Hd Hu.
  all: replace (missing (Some d)) with false by (by destruct d).
  all: run_handler; by rewrite Hu.
Qed.

(** C5. DELETE answers 204 whenever the store's [delete] goes through,
    whether or not there was an object at the key, and leaves none there;
    so two DELETEs of the same key in a row both answer 204.  When the
    store throws, the answer is 204 if the message contains one of
    ["not found"], ["does not exist"], ["404"], and 500 otherwise; the
    stored objects are as before. *)
Theorem delete_idempotent request env :
  Request.method request = "DELETE" →
  let first := handleWebDAV request env in
  let second :=
    handleWebDAV request {| BUCKET := first.2; BUCKET_NAME := BUCKET_NAME env |} in
  (next_fault (BUCKET env) = None →
   Response.status first.1 = 204 ∧
   R2Bucket.contents first.2 =
     delete (make_resource_path request) (R2Bucket.contents (BUCKET env))) ∧
  (next_fault (BUCKET env) = None → next_fault first.2 = None →
   Response.status first.1 = 204 ∧ Response.status second.1 = 204 ∧
   R2Bucket.contents second.2 = R2Bucket.contents first.2) ∧
  (∀ message,
     next_fault (BUCKET env) = Some message →
     Response.status first.1 =
       (if Js.includes message "not found" || Js.includes message "does not exist"
           || Js.includes message "404"
        then 204 else 500) ∧
     R2Bucket.contents first.2 = R2Bucket.contents (BUCKET env)).
Proof.
  intros Hm.
  assert (Hquiet : ∀ e, next_fault (BUCKET e) = None →
    handleWebDAV request e =
      (Response.mk BodyNull 204 [],
       R2Bucket.mk (delete (make_resource_path request) (R2Bucket.contents (BUCKET e)))
         (R2Bucket.clock (BUCKET e)) (tail (R2Bucket.faults (BUCKET e))))).
  { intros e Hq. unfold handleWebDAV. rewrite (dispatch_delete _ Hm).
    unfold handleDelete, try_catch, bucket_delete, mbind, Promise_bind.
    by rewrite (store_call_quiet _ _ Hq). }
  simpl. split; [|split].
  - intros Hq. by rewrite (Hquiet _ Hq).
  - intros Hq Hq2. rewrite (Hquiet _ Hq) in *. simpl in *.
    rewrite (Hquiet (Build_Env _ _) Hq2). simpl. by rewrite delete_delete_eq.
  - intros message Hf. unfold handleWebDAV. rewrite (dispatch_delete _ Hm).
    unfold handleDelete, try_catch, bucket_delete, mbind, Promise_bind.
    rewrite (store_call_fault _ _ _ Hf). unfold not_found_shaped.
    by destruct (_ || _ || _).
Qed.

(** The object a MKCOL writes: no content, the collection metadata. *)
Lemma marker_object key now :
  let marker := stored_object key [] marker_options now in
  R2Object.key marker = key ∧ R2Object.body marker = [] ∧ R2Object.size marker = 0 ∧
  R2Object.customMetadata marker ≫= (.!! "resourcetype") = Some "collection".
Proof. done. Qed.

(** What a MKCOL that answers 201 has done to the stored objects. *)
Lemma mkcol_created request env :
  Request.method request = "MKCOL" →
  make_resource_path request ≠ "" →
  Response.status (handleWebDAV request env).1 = 201 →
  let marker := markerFileKey (make_resource_path request) in
  R2Bucket.contents (handleWebDAV request env).2 =
    match R2Bucket.contents (BUCKET env) !! marker with
    | Some _ => R2Bucket.contents (BUCKET env)
    | None =>
        <[marker := stored_object marker [] marker_options (R2Bucket.clock (BUCKET env))]>
          (R2Bucket.contents (BUCKET env))
    end.
Proof.
  intros Hm Hne. unfold handleWebDAV. rewrite (dispatch_mkcol _ Hm).
  unfold handleMkcol. rewrite decide_False by done.
  destruct env as [[objs now fs] nm]. run_handler.
  destruct fs as [|[m1|] fs]; simpl; try discriminate.
  all: destruct (objs !! markerFileKey (make_resource_path request)); simpl; [done|].
  all: try destruct fs as [|[m2|] fs]; simpl; done.
Qed.

(** C2 (amended). For a non-empty key, a MKCOL that answers 201 and did
    not find the marker has stored one object and nothing else: a
    zero-byte object with custom metadata [resourcetype = collection]
    whose key is the collection key, a slash added unless it ends in one,
    followed by [_$folder$].  A MKCOL that answers 201 because the marker
    was already there stores nothing. *)
Theorem mkcol_stores_marker request env :
  Request.method request = "MKCOL" →
  make_resource_path request ≠ "" →
  Response.status (handleWebDAV request env).1 = 201 →
  let resource_path := make_resource_path request in
  let before := R2Bucket.contents (BUCKET env) in
  let after := R2Bucket.contents (handleWebDAV request env).2 in
  markerFileKey resource_path =
    ((if Js.endsWith resource_path "/" then resource_path
      else resource_path ++ "/") ++ "_$folder$")%string ∧
  (is_Some (before !! markerFileKey resource_path) → after = before) ∧
  (before !! markerFileKey resource_path = None →
   ∃ marker,
     after = <[markerFileKey resource_path := marker]> before ∧
     R2Object.key marker = markerFileKey resource_path ∧
     R2Object.body marker = [] ∧
     R2Object.size marker = 0 ∧
     R2Object.customMetadata marker = Some {[ "resourcetype" := "collection" ]}).
Proof.
  intros Hm Hne H201. simpl. rewrite (mkcol_created _ _ Hm Hne H201). simpl.
  split; [done|]. split.
  - by intros [existing ->].
  - intros ->. by eexists.
Qed.

(** C8. For a non-empty key: a MKCOL against a store that answers is
    answered 201; when a first MKCOL was answered 201, a second one on
    the same key, its store call going through, is answered 201 again
    (it finds the marker and says so); and in every case the second call
    leaves the stored objects and the clock as the first left them. *)
Theorem mkcol_idempotent request env :
  Request.method request = "MKCOL" →
  make_resource_path request ≠ "" →
  let first := handleWebDAV request env in
  let second :=
    handleWebDAV request {| BUCKET := first.2; BUCKET_NAME := BUCKET_NAME env |} in
  (no_faults 2 (BUCKET env) = true → Response.status first.1 = 201) ∧
  (Response.status first.1 = 201 → next_fault first.2 = None →
   second.1 = Response.mk (BodyText "Alraedy Exist") 201 []) ∧
  (Response.status first.1 = 201 →
   R2Bucket.contents second.2 = R2Bucket.contents first.2 ∧
   R2Bucket.clock second.2 = R2Bucket.clock first.2).
Proof.
  intros Hm Hne. simpl.
  assert (Hmarked : Response.status (handleWebDAV request env).1 = 201 →
    is_Some (R2Bucket.contents (handleWebDAV request env).2
               !! markerFileKey (make_resource_path request))).
  { intros H201. rewrite (mkcol_created _ _ Hm Hne H201).
    destruct (R2Bucket.contents (BUCKET env) !! _) eqn:Hk; [by rewrite Hk|].
    rewrite lookup_insert_eq. by eexists. }
  split; [|split].
  - unfold handleWebDAV. rewrite (dispatch_mkcol _ Hm).
    unfold handleMkcol. rewrite decide_False by done.
    destruct env as [[objs now fs] nm]. unfold no_faults. run_handler.
    destruct fs as [|[m1|] fs]; simpl; try discriminate.
    all: destruct (objs !! markerFileKey (make_resource_path request)); simpl; [done|].
    all: try destruct fs as [|[m2|] fs]; simpl; done.
  - intros H201 Hq. destruct (Hmarked H201) as [existing Hk].
    destruct (handleWebDAV request env) as [r1 b1]. simpl in *.
    unfold handleWebDAV. rewrite (dispatch_mkcol _ Hm).
    unfold handleMkcol. rewrite decide_False by done.
    unfold try_catch, bucket_head, mbind, Promise_bind. simpl.
    rewrite (store_call_quiet _ _ Hq). simpl. by rewrite Hk.
  - intros H201. destruct (Hmarked H201) as [existing Hk].
    destruct (handleWebDAV request env) as [r1 [objs now fs]]. simpl in *.
    unfold handleWebDAV. rewrite (dispatch_mkcol _ Hm).
    unfold handleMkcol. rewrite decide_False by done. run_handler.
    destruct fs as [|[m1|] fs]; simpl; rewrite ?Hk; done.
Qed.

(** C9. PROPFIND with [Depth: 0], its one store call going through, is
    answered by a prefix query on the key as it is: when some stored key
    starts with the key, the answer is 207, with an XML content type,
    whose body is the multistatus of exactly one made-up entry for the key:
    display name the key's last segment, resource type [collection],
    content length [0], empty content type, ETag [implicit-folder-] and the
    key in quotes, both dates the current time.  When no stored key starts
    with the key, the answer is 404.  Nothing else about the bucket is
    consulted, so a key that is a plain file, or a mere prefix of another
    key's name, is answered as a collection. *)
Theorem propfind_depth0_prefix_probe request env :
  Request.method request = "PROPFIND" →
  Request.headers_get request "Depth" = Some "0" →
  next_fault (BUCKET env) = None →
  let K := make_resource_path request in
  let now := R2Bucket.clock (BUCKET env) in
  ((∃ k o, R2Bucket.contents (BUCKET env) !! k = Some o ∧ Js.startsWith k K = true) →
   (handleWebDAV request env).1 =
     Response.mk
       (BodyText
          (generatePropfindResponse K
             [{| props_displayname := Js.or_else (Js.split_pop K) K;
                 creationdate := toUTCString now;
                 getcontentlength := "0";
                 getcontenttype := "";
                 getetag := (Js.dquote ++ "implicit-folder-" ++ K ++ Js.dquote)%string;
                 getlastmodified := toUTCString now;
                 resourcetype := "collection" |}]))
       207 [("Content-Type", "application/xml; charset=utf-8")]) ∧
  ((∀ k o, R2Bucket.contents (BUCKET env) !! k = Some o → Js.startsWith k K = false) →
   (handleWebDAV request env).1 = Response.mk (BodyText "Not Found") 404 []).
Proof.
  intros Hm Hd Hq K now.
  pose proof (propfind_depth0_answer _ _ Hm Hd Hq) as Hanswer. cbv zeta in Hanswer.
  fold K now in Hanswer. rewrite Hanswer.
  pose proof (probe_finds K (R2Bucket.contents (BUCKET env))) as Hprobe.
  destruct (folderExists _).
  - split; [by intros _|].
    intros Hnone. destruct (proj1 Hprobe eq_refl) as (k & o & Hk & Hp).
    rewrite (Hnone _ _ Hk) in Hp. done.
  - split; [|by intros _].
    intros Hsome. apply Hprobe in Hsome. done.
Qed.

(** The second half of C3 holds: once a PUT of a child of the key has
    been answered 201, a PROPFIND of the key with [Depth: 0] on the bucket
    so left, its store call going through, is answered 207 with the one
    made-up collection entry. *)
Lemma propfind_depth0_after_child_put put propfind env env' K child :
  Request.method put = "PUT" →
  make_resource_path put = (K ++ "/" ++ child)%string →
  Response.status (handleWebDAV put env).1 = 201 →
  Request.method propfind = "PROPFIND" →
  Request.headers_get propfind "Depth" = Some "0" →
  make_resource_path propfind = K →
  R2Bucket.contents (BUCKET env') = R2Bucket.contents (handleWebDAV put env).2 →
  next_fault (BUCKET env') = None →
  (handleWebDAV propfind env').1 =
    Response.mk
      (BodyText
         (generatePropfindResponse K
            [implicit_folder K (R2Bucket.clock (BUCKET env'))
               (R2Bucket.clock (BUCKET env'))]))
      207 [("Content-Type", "application/xml; charset=utf-8")].
Proof.
  intros Hput Hkey H201 Hm Hd HK Hc Hq.
  pose proof (propfind_depth0_answer _ _ Hm Hd Hq) as Hanswer. cbv zeta in Hanswer.
  rewrite HK in Hanswer. rewrite Hanswer.
  destruct (put_stored _ _ Hput H201) as [o Ho]. rewrite Hkey, <- Hc in Ho.
  rewrite (proj2 (probe_finds K (R2Bucket.contents (BUCKET env')))); [done|].
  exists (K ++ "/" ++ child)%string, o. split; [done|].
  unfold Js.startsWith. clear. induction K as [|c K IH]; simpl; [done|].
  by destruct (ascii_dec c c).
Qed.

(** C7. For distinct keys A and B with an object at A, a COPY of A to B
    that answers 201 leaves at B an object with A's content, HTTP
    metadata (the content type) and custom metadata, leaves the object at
    A as it was, and touches no key other than B. *)
Theorem copy_preserves request env A B d u o :
  Request.method request = "COPY" →
  make_resource_path request = A →
  Request.headers_get request "Destination" = Some d →
  URL_new d = Normal u →
  make_resource_path (Request_new u) = B →
  A ≠ B →
  R2Bucket.contents (BUCKET env) !! A = Some o →
  Response.status (handleWebDAV request env).1 = 201 →
  let after := R2Bucket.contents (handleWebDAV request env).2 in
  (∃ copy,
     after !! B = Some copy ∧
     R2Object.body copy = R2Object.body o ∧
     R2Object.httpMetadata copy = R2Object.httpMetadata o ∧
     R2Object.customMetadata copy = R2Object.customMetadata o) ∧
  after !! A = Some o ∧
  (∀ k, k ≠ B → after !! k = R2Bucket.contents (BUCKET env) !! k).
Proof.
  intros Hm HA Hd Hu HB Hne Ho. unfold handleWebDAV.
  rewrite (dispatch_copy _ Hm). unfold handleCopy. rewrite Hd.
  destruct (missing (Some d)); [done|].
  simpl default. destruct env as [[objs now fs] nm]. simpl in Ho.
  run_handler. rewrite Hu, HA, HB.
  destruct fs as [|[m1|] [|[m2|] fs]]; simpl; rewrite ?Ho; simpl;
    try discriminate; intros _.
  all: split; [eexists; split; [apply lookup_insert_eq|done]|].
  all: split; [by rewrite lookup_insert_ne|].
  all: intros k Hk; by rewrite lookup_insert_ne.
Qed.

(** A MOVE with a source and a destination that parses, the store
    letting its three calls through: the copy is written, the source is
    deleted, and then building the answer throws, because it gives status
    204 a body; the handler's catch answers 500 with that error. *)
Lemma move_completed request env A B d u o :
  Request.method request = "MOVE" →
  make_resource_path request = A →
  Request.headers_get request "Destination" = Some d →
  d ≠ "" →
  URL_new d = Normal u →
  make_resource_path (Request_new u) = B →
  R2Bucket.contents (BUCKET env) !! A = Some o →
  no_faults 3 (BUCKET env) = true →
  (handleWebDAV request env).1 =
    Response.mk (BodyText (generateErrorHTML "Error moving file" null_body_error))
      500 [("Content-Type", "text/html; charset=utf-8")] ∧
  R2Bucket.contents (handleWebDAV request env).2 =
    delete A (<[B := stored_object B (R2Object.body o) (copy_options o)
                       (R2Bucket.clock (BUCKET env))]>
                (R2Bucket.contents (BUCKET env))).
Proof.
  intros Hm HA Hd Hne Hu HB Ho. unfold handleWebDAV.
  rewrite (dispatch_move _ Hm). unfold handleMove. rewrite Hd.
  replace (missing (Some d)) with false by (by destruct d).
  simpl default. destruct env as [[objs now fs] nm]. simpl in Ho.
  unfold no_faults. run_handler. rewrite Hu, HA, HB.
  destruct fs as [|[m1|] [|[m2|] [|[m3|] fs]]]; simpl; rewrite ?Ho; simpl;
    try discriminate; done.
Qed.

(** A MOVE is never answered 204. *)
Lemma move_never_204 request env :
  Request.method request = "MOVE" →
  Response.status (handleWebDAV request env).1 ≠ 204.
Proof.
  intros Hm. unfold handleWebDAV. rewrite (dispatch_move _ Hm). unfold handleMove.
  destruct (missing _); [done|]. run_handler. destruct (URL_new _); [|done].
  destruct env as [[objs now fs] nm]. run_handler.
  destruct fs as [|[m1|] [|[m2|] [|[m3|] fs]]]; simpl;
    destruct (objs !! make_resource_path request); simpl; done.
Qed.


(** C10 fails on the code in its answer.  When the [Destination] of a
    MOVE resolves to the source key A itself, an object is at A and the
    store lets the three calls through, the object is written back to A and
    A is then deleted, so no object is left at A and a GET of the file at A
    on the bucket so left is answered 404; but the MOVE is answered 500,
    not 204: building the 204 answer with a body throws. *)
Theorem move_onto_itself request env A d u o :
  Request.method request = "MOVE" →
  make_resource_path request = A →
  Request.headers_get request "Destination" = Some d →
  d ≠ "" →
  URL_new d = Normal u →
  make_resource_path (Request_new u) = A →
  R2Bucket.contents (BUCKET env) !! A = Some o →
  no_faults 3 (BUCKET env) = true →
  let after := R2Bucket.contents (handleWebDAV request env).2 in
  (handleWebDAV request env).1 =
    Response.mk (BodyText (generateErrorHTML "Error moving file" null_body_error))
      500 [("Content-Type", "text/html; charset=utf-8")] ∧
  after = delete A (R2Bucket.contents (BUCKET env)) ∧
  after !! A = None ∧
  ∀ get env',
    Request.method get = "GET" →
    Js.endsWith (Request.url get) "/" = false →
    make_resource_path get = A →
    R2Bucket.contents (BUCKET env') = after →
    next_fault (BUCKET env') = None →
    Response.status (handleWebDAV get env').1 = 404.
Proof.
  intros Hm HA Hd Hne Hu HB Ho Hq. simpl.
  destruct (move_completed _ _ _ _ _ _ _ Hm HA Hd Hne Hu HB Ho Hq) as [Hanswer ->].
  rewrite delete_insert_eq.
  split; [exact Hanswer|]. split; [done|]. split; [apply lookup_delete_eq|].
  intros get env' Hg Hf Hk Hc Hq'. rewrite (get_file _ _ Hg Hf Hq'), Hk, Hc.
  by rewrite lookup_delete_eq.
Qed.

End Claims.

(** ** The claims on concrete requests *)

(** Settles a closed goal by evaluation. *)
Ltac computes := vm_compute; first [reflexivity | discriminate | done].

Section Examples.

Import Scenario.
#[local] Existing Instance SpecUtils.runtime.
#[local] Existing Instance SpecUtils.utils.

(** C1 at [GET /a/] with [a/b.txt] stored and the store answering:
    the answer is the 500 of the catch-all, not the page. *)
Lemma get_collection_answers_500_witness :
  (serve (get "/a/") (env_with [file "a/b.txt" hi])).1 =
    Response.mk
      (BodyText (generateErrorHTML "Internal Server Error" "bucketName is not defined"))
      500 [("Content-Type", "text/html; charset=utf-8")].
Proof.
  pose proof (get_collection_answers_500 (get "/a/") (env_with [file "a/b.txt" hi])
                eq_refl eq_refl) as Hanswer.
  assert (listAll (make_resource_path (get "/a/")) (BUCKET (env_with [file "a/b.txt" hi]))
          = (Normal [file "a/b.txt" hi], bucket_with [file "a/b.txt" hi])) as Hl
    by (vm_compute; reflexivity).
  rewrite Hl in Hanswer. unfold serve. rewrite Hanswer. reflexivity.
Defined.

(** C1, the failure branch: the listing throws and the answer is 500. *)
Example get_collection_listing_error :
  Response.status
    (serve (get "/a/") (failing_env [file "a/b.txt" hi] "backend unavailable")).1 = 500.
Proof. reflexivity. Qed.

(** C2 as stated fails at [MKCOL /x/] on an empty bucket: the answer is
    201, nothing is stored at [x/_marker], and the marker is at
    [x/_$folder$]. *)
Lemma mkcol_marker_key_counterexample :
  Response.status (serve (mkcol "/x/") (env_with [])).1 = 201 ∧
  R2Bucket.contents (serve (mkcol "/x/") (env_with [])).2 !! "x/_marker" = None ∧
  is_Some (R2Bucket.contents (serve (mkcol "/x/") (env_with [])).2 !! "x/_$folder$").
Proof. vm_compute. split; [done|]. split; [done|]. by eexists. Qed.

(** C2 (amended) at [MKCOL /x/] on an empty bucket. *)
Lemma mkcol_stores_marker_witness :
  ∃ marker,
    R2Bucket.contents (serve (mkcol "/x/") (env_with [])).2 = {[ "x/_$folder$" := marker ]} ∧
    R2Object.body marker = [] ∧
    R2Object.customMetadata marker = Some {[ "resourcetype" := "collection" ]}.
Proof.
  assert (make_resource_path (mkcol "/x/") ≠ "") as Hkey by (vm_compute; discriminate).
  destruct (mkcol_stores_marker (mkcol "/x/") (env_with []) eq_refl Hkey eq_refl)
    as (_ & _ & Hnew).
  destruct (Hnew eq_refl) as (marker & Hafter & _ & Hbody & _ & Hmeta).
  exists marker. unfold serve. rewrite Hafter. done.
Defined.

(** C3 fails on the code at [PROPFIND /tab] with [Depth: 0] when only
    [tabby.txt] is stored: the key [tab] has no marker and no descendant
    (no stored key starts with [tab/]), and the answer is 207, not 404. *)
Theorem propfind_depth0_no_descendants :
  (∀ k, is_Some (R2Bucket.contents (BUCKET (env_with [file "tabby.txt" hi])) !! k) →
        Js.startsWith k "tab/" = false) ∧
  make_resource_path (propfind0 "/tab") = "tab" ∧
  Response.status (serve (propfind0 "/tab") (env_with [file "tabby.txt" hi])).1 = 207.
Proof.
  split; [|split; reflexivity].
  intros k [o Hk]. change (({[ "tabby.txt" := file "tabby.txt" hi ]} : gmap string R2Object) !! k = Some o) in Hk.
  apply lookup_singleton_Some in Hk as [<- _]. reflexivity.
Qed.

(** C4 as stated fails at a COPY whose [Destination] is no URL: the
    answer is 500, not 400. *)
Lemma copy_unparseable_destination_counterexample :
  Response.status
    (serve (copy "/a/b.txt" "not a url") (env_with [file "a/b.txt" hi])).1 = 500 ∧
  Response.status
    (serve (copy "/a/b.txt" "not a url") (env_with [file "a/b.txt" hi])).1 ≠ 400.
Proof. split; [reflexivity|discriminate]. Qed.

(** C4 (amended) at a MOVE without [Destination]. *)
Lemma copy_move_destination_witness :
  serve (request "MOVE" "/a/b.txt" [] []) (env_with [file "a/b.txt" hi]) =
    (Response.mk (BodyText "Bad Request: Destination header is missing") 400 [],
     bucket_with [file "a/b.txt" hi]).
Proof.
  apply (copy_move_destination (request "MOVE" "/a/b.txt" [] [])
           (env_with [file "a/b.txt" hi]) (or_intror eq_refl)).
  reflexivity.
Defined.

(** C5 at two DELETEs of a key that holds nothing. *)
Lemma delete_idempotent_witness :
  Response.status (serve (delete_ "/gone.txt") (env_with [])).1 = 204 ∧
  Response.status
    (serve (delete_ "/gone.txt") (after (delete_ "/gone.txt") (env_with []))).1 = 204.
Proof.
  destruct (delete_idempotent (delete_ "/gone.txt") (env_with []) eq_refl)
    as (_ & Htwice & _).
  destruct (Htwice eq_refl eq_refl) as (Hfirst & Hsecond & _).
  split; [exact Hfirst|exact Hsecond].
Defined.

(** C5, the three kinds of store error. *)
Example delete_swallows_not_found :
  Response.status
    (serve (delete_ "/a/b.txt") (failing_env [file "a/b.txt" hi] "object not found")).1
  = 204.
Proof. reflexivity. Qed.

Example delete_reports_other_errors :
  Response.status
    (serve (delete_ "/a/b.txt") (failing_env [file "a/b.txt" hi] "quota exceeded")).1
  = 500.
Proof. reflexivity. Qed.


(** C7 at [COPY /a/b.txt] to [/a/c.txt]: the source is as it was and the
    copy has its content type. *)
Lemma copy_preserves_witness :
  let stored := R2Bucket.contents
                  (serve (copy "/a/b.txt" "http://dav.example/a/c.txt")
                     (env_with [file "a/b.txt" hi])).2 in
  stored !! "a/b.txt" = Some (file "a/b.txt" hi) ∧
  ∃ copied,
    stored !! "a/c.txt" = Some copied ∧
    R2Object.body copied = hi ∧
    R2Object.httpMetadata copied = Some {| contentType := Some "text/plain" |} ∧
    R2Object.customMetadata copied = None.
Proof.
  unshelve epose proof
    (copy_preserves (copy "/a/b.txt" "http://dav.example/a/c.txt")
       (env_with [file "a/b.txt" hi]) "a/b.txt" "a/c.txt"
       "http://dav.example/a/c.txt" "http://dav.example/a/c.txt"
       (file "a/b.txt" hi) _ _ _ _ _ _ _ _)
    as ((copied & Hcopy & Hbody & Hhttp & Hcustom) & Hsource & _); [computes..|].
  split; [exact Hsource|]. by exists copied.
Defined.

(** C8 at two MKCOLs of [/x/] on an empty bucket. *)
Lemma mkcol_idempotent_witness :
  Response.status (serve (mkcol "/x/") (env_with [])).1 = 201 ∧
  (serve (mkcol "/x/") (after (mkcol "/x/") (env_with []))).1 =
    Response.mk (BodyText "Alraedy Exist") 201 [] ∧
  R2Bucket.contents (serve (mkcol "/x/") (after (mkcol "/x/") (env_with []))).2 =
    R2Bucket.contents (serve (mkcol "/x/") (env_with [])).2.
Proof.
  unshelve epose proof (mkcol_idempotent (mkcol "/x/") (env_with []) _ _)
    as (Hfirst & Hsecond & Hstate); [computes..|].
  assert (Response.status (serve (mkcol "/x/") (env_with [])).1 = 201) as H201
    by (apply Hfirst; computes).
  split; [exact H201|]. split; [apply Hsecond; [exact H201|computes]|].
  exact (proj1 (Hstate H201)).
Defined.

(** C9 at [PROPFIND /a/b.txt] with [Depth: 0], where [a/b.txt] is a
    plain file without children: it is answered as a collection. *)
Lemma propfind_depth0_prefix_probe_witness :
  (serve (propfind0 "/a/b.txt") (env_with [file "a/b.txt" hi])).1 =
    Response.mk
      (BodyText
         (generatePropfindResponse "a/b.txt"
            [{| props_displayname := "b.txt";
                creationdate := "0";
                getcontentlength := "0";
                getcontenttype := "";
                getetag := (Js.dquote ++ "implicit-folder-a/b.txt" ++ Js.dquote)%string;
                getlastmodified := "0";
                resourcetype := "collection" |}]))
      207 [("Content-Type", "application/xml; charset=utf-8")].
Proof.
  unshelve epose proof
    (propfind_depth0_prefix_probe (propfind0 "/a/b.txt")
       (env_with [file "a/b.txt" hi]) _ _ _) as [Hfound _]; [computes..|].
  unfold serve. rewrite Hfound; [reflexivity|].
  exists "a/b.txt", (file "a/b.txt" hi). split; computes.
Defined.

(** C9, a key that is only the beginning of another key's name. *)
Example propfind_depth0_name_prefix :
  (serve (propfind0 "/tab") (env_with [file "tabby.txt" hi])).1 =
    Response.mk
      (BodyText
         (generatePropfindResponse "tab"
            [{| props_displayname := "tab";
                creationdate := "0";
                getcontentlength := "0";
                getcontenttype := "";
                getetag := (Js.dquote ++ "implicit-folder-tab" ++ Js.dquote)%string;
                getlastmodified := "0";
                resourcetype := "collection" |}]))
      207 [("Content-Type", "application/xml; charset=utf-8")].
Proof. reflexivity. Qed.

(** C9, the other direction: no stored key starts with the key. *)
Example propfind_depth0_nothing :
  Response.status (serve (propfind0 "/tac") (env_with [file "tabby.txt" hi])).1 = 404.
Proof. reflexivity. Qed.

(** C10 at [MOVE /a/b.txt] to itself: answered 500, and the bucket is
    left without the object. *)
Lemma move_onto_itself_witness :
  Response.status
    (serve (move "/a/b.txt" "http://dav.example/a/b.txt")
       (env_with [file "a/b.txt" hi])).1 = 500 ∧
  R2Bucket.contents
    (serve (move "/a/b.txt" "http://dav.example/a/b.txt")
       (env_with [file "a/b.txt" hi])).2 !! "a/b.txt" = None ∧
  Response.status
    (serve (get "/a/b.txt")
       (after (move "/a/b.txt" "http://dav.example/a/b.txt")
          (env_with [file "a/b.txt" hi]))).1 = 404.
Proof.
  unshelve epose proof
    (move_onto_itself (move "/a/b.txt" "http://dav.example/a/b.txt")
       (env_with [file "a/b.txt" hi]) "a/b.txt"
       "http://dav.example/a/b.txt" "http://dav.example/a/b.txt"
       (file "a/b.txt" hi) _ _ _ _ _ _ _ _)
    as (Hanswer & _ & Hgone & Hget); [computes..|].
  split; [unfold serve; by rewrite Hanswer|]. split; [exact Hgone|].
  apply Hget; computes.
Defined.

(** The scenario of section 8: COPY [b] to [c], DELETE [b], MOVE [c] to
    [d] leaves only [d], with the original content (the MOVE itself being
    answered 500). *)
Example copy_delete_move :
  let env1 := after (copy "/a/b.txt" "http://dav.example/a/c.txt")
                (env_with [file "a/b.txt" hi]) in
  let env2 := after (delete_ "/a/b.txt") env1 in
  let env3 := after (move "/a/c.txt" "http://dav.example/a/d.txt") env2 in
  Response.status (serve (get "/a/b.txt") env3).1 = 404 ∧
  Response.status (serve (get "/a/c.txt") env3).1 = 404 ∧
  Response.body (serve (get "/a/d.txt") env3).1 = BodyStream hi.
Proof. vm_compute. done. Qed.

End Examples.

(** Splits every store call, lookup and test a handler meets. *)
Ltac handler_cases :=
  run_handler;
  repeat (simpl;
    match goal with
    | |- context [match ?fs with [] => _ | _ :: _ => _ end] =>
        is_var fs; destruct fs as [|[?|] ?]
    | |- context [match ?m !! ?k with Some _ => _ | None => _ end] =>
        let Hk := fresh "Hk" in destruct (m !! k) eqn:Hk
    end);
  simpl.

(** ** More of the handlers *)

Section Further.

Context `{!Runtime} `{!Utils}.

Lemma dispatch_options request :
  Request.method request = "OPTIONS" → dispatch request = lift handleOptions.
Proof. unfold dispatch. by intros ->. Qed.

Lemma dispatch_head request :
  Request.method request = "HEAD" → dispatch request = handleHead request.
Proof. unfold dispatch. by intros ->. Qed.

Lemma dispatch_unsupported request :
  Request.method request ∉ SUPPORT_METHODS →
  dispatch request =
    new_Response (BodyText "Method Not Allowed") 405
      [("Allow", String.concat ", " SUPPORT_METHODS); ("DAV", DAV_CLASS)].
Proof.
  intros Hm. unfold dispatch.
  repeat match goal with
  | |- context [String.eqb ?m ?s] =>
      destruct (String.eqb_spec m s) as [He|_];
      [exfalso; apply Hm; rewrite He; unfold SUPPORT_METHODS; set_solver|]
  end.
  done.
Qed.

(** X1. A request whose method is none of the nine supported ones is
    answered 405 with the [Allow] header listing those nine and the [DAV]
    header; the store is not called and the bucket is left as it was. *)
Theorem unsupported_method request env :
  Request.method request ∉ SUPPORT_METHODS →
  handleWebDAV request env =
    (Response.mk (BodyText "Method Not Allowed") 405
       [("Allow", "OPTIONS, PROPFIND, MKCOL, GET, HEAD, PUT, COPY, MOVE, DELETE");
        ("DAV", "1, 2")],
     BUCKET env).
Proof.
  intros Hm. unfold handleWebDAV. by rewrite (dispatch_unsupported _ Hm).
Qed.


(** X5. On the same bucket, HEAD of a key and GET of the same key through
    a URL without a trailing slash are answered with the same status and
    leave the same bucket.  The responses carry the same headers when the
    answer is 200 or 500; when it is 404, HEAD's response has no header
    while GET's, built from the string [Not Found], has the content type
    [text/plain;charset=UTF-8].  HEAD has no body unless it is answered
    500. *)
Theorem head_matches_get head get env :
  Request.method head = "HEAD" →
  Request.method get = "GET" →
  Js.endsWith (Request.url get) "/" = false →
  make_resource_path head = make_resource_path get →
  let head_answer := (handleWebDAV head env).1 in
  let get_answer := (handleWebDAV get env).1 in
  Response.status head_answer = Response.status get_answer ∧
  (handleWebDAV head env).2 = (handleWebDAV get env).2 ∧
  (Response.status head_answer ≠ 404 →
   Response.sent_headers head_answer = Response.sent_headers get_answer) ∧
  (Response.status head_answer = 404 →
   Response.sent_headers head_answer = [] ∧
   Response.sent_headers get_answer = [("Content-Type", "text/plain;charset=UTF-8")]) ∧
  (Response.status head_answer ≠ 500 → Response.body head_answer = BodyNull).
Proof.
  intros Hh Hg Hu Hk. simpl. unfold handleWebDAV.
  rewrite (dispatch_head _ Hh), (dispatch_get _ Hg).
  unfold handleHead, handleGet, handleFile. rewrite Hu, Hk.
  destruct env as [[objs now fs] nm]. handler_cases; done.
Qed.

(** X2. The statuses each method can be answered with, whatever the
    bucket holds and whatever the store, the listing or the URL constructor
    throws. *)
Theorem status_table request env :
  let method := Request.method request in
  let status := Response.status (handleWebDAV request env).1 in
  (method = "OPTIONS" → status = 200) ∧
  (method = "HEAD" → status ∈ [200; 404; 500]) ∧
  (method = "GET" → status ∈ [200; 404; 500]) ∧
  (method = "PUT" → status ∈ [201; 500]) ∧
  (method = "DELETE" → status ∈ [204; 500]) ∧
  (method = "MKCOL" → status ∈ [201; 405; 500]) ∧
  (method = "PROPFIND" → status ∈ [207; 404; 500]) ∧
  (method = "COPY" → status ∈ [201; 400; 404; 500]) ∧
  (method = "MOVE" → status ∈ [204; 400; 404; 500]) ∧
  (method ∉ SUPPORT_METHODS → status = 405).
Proof.
  simpl. unfold handleWebDAV. destruct env as [[objs now fs] nm].
  repeat split; intros Hm.
  - by rewrite (dispatch_options _ Hm).
  - rewrite (dispatch_head _ Hm). unfold handleHead. handler_cases; set_solver.
  - rewrite (dispatch_get _ Hm). unfold handleGet, handleDirectory, handleFile.
    destruct (Js.endsWith _ _).
    + run_handler. destruct (listAll _ _) as [[?|?] ?]; simpl; set_solver.
    + handler_cases; set_solver.
  - rewrite (dispatch_put _ Hm). unfold handlePut. handler_cases; set_solver.
  - rewrite (dispatch_delete _ Hm). unfold handleDelete. handler_cases;
      try destruct (not_found_shaped _); simpl; set_solver.
  - rewrite (dispatch_mkcol _ Hm). unfold handleMkcol.
    destruct (decide _); [simpl; set_solver|]. handler_cases; set_solver.
  - rewrite (dispatch_propfind _ Hm). unfold handlePropfind.
    destruct (decide _).
    + run_handler. destruct (listAll _ _) as [[?|?] ?]; simpl; set_solver.
    + handler_cases; try destruct (folderExists _); simpl; set_solver.
  - rewrite (dispatch_copy _ Hm). unfold handleCopy.
    destruct (missing _); [simpl; set_solver|].
    run_handler. destruct (URL_new _); [|simpl; set_solver].
    handler_cases; set_solver.
  - rewrite (dispatch_move _ Hm). unfold handleMove.
    destruct (missing _); [simpl; set_solver|].
    run_handler. destruct (URL_new _); [|simpl; set_solver].
    handler_cases; set_solver.
  - by rewrite (dispatch_unsupported _ Hm).
Qed.


(** What a PUT that answers 201 has stored. *)
Lemma put_created request env :
  Request.method request = "PUT" →
  Response.status (handleWebDAV request env).1 = 201 →
  R2Bucket.contents (handleWebDAV request env).2 =
    <[make_resource_path request :=
        stored_object (make_resource_path request) (Request.body request)
          {| put_httpMetadata :=
               Some {| contentType :=
                         Some (Js.opt_or_else (Request.headers_get request "Content-Type")
                                 "application/octet-stream") |};
             put_customMetadata := None |}
          (R2Bucket.clock (BUCKET env))]>
      (R2Bucket.contents (BUCKET env)).
Proof.
  intros Hm. unfold handleWebDAV. rewrite (dispatch_put _ Hm). unfold handlePut.
  destruct env as [[objs now fs] nm]. handler_cases; done.
Qed.

(** X6. After a PUT answered 201, a GET of the same key (URL without a
    trailing slash, store answering) is answered 200 with the bytes that
    were put, the content type the PUT gave (or
    [application/octet-stream] when it gave none or an empty one), their
    length, their ETag and the time of the PUT. *)
Theorem put_get_roundtrip put get env env' :
  Request.method put = "PUT" →
  Response.status (handleWebDAV put env).1 = 201 →
  Request.method get = "GET" →
  Js.endsWith (Request.url get) "/" = false →
  make_resource_path get = make_resource_path put →
  R2Bucket.contents (BUCKET env') = R2Bucket.contents (handleWebDAV put env).2 →
  next_fault (BUCKET env') = None →
  (handleWebDAV get env').1 =
    Response.mk (BodyStream (Request.body put)) 200
      [("Content-Type",
        Js.opt_or_else (Request.headers_get put "Content-Type") "application/octet-stream");
       ("Content-Length", pretty (length (Request.body put)));
       ("ETag", etag_of (Request.body put));
       ("Last-Modified", toUTCString (R2Bucket.clock (BUCKET env)))].
Proof.
  intros Hp H201 Hg Hu Hk Hc Hq.
  rewrite (get_file _ _ Hg Hu Hq), Hk, Hc, (put_created _ _ Hp H201).
  by rewrite lookup_insert_eq.
Qed.

(** X7. A PUT answered 201 at a key that held nothing, followed by a
    DELETE of that key whose store call goes through, leaves the stored
    objects exactly as they were before the PUT. *)
Theorem put_delete_restores put del env env' :
  Request.method put = "PUT" →
  Request.method del = "DELETE" →
  make_resource_path del = make_resource_path put →
  R2Bucket.contents (BUCKET env) !! make_resource_path put = None →
  Response.status (handleWebDAV put env).1 = 201 →
  R2Bucket.contents (BUCKET env') = R2Bucket.contents (handleWebDAV put env).2 →
  next_fault (BUCKET env') = None →
  Response.status (handleWebDAV del env').1 = 204 ∧
  R2Bucket.contents (handleWebDAV del env').2 = R2Bucket.contents (BUCKET env).
Proof.
  intros Hp Hd Hk Hfresh H201 Hc Hq.
  unfold handleWebDAV. rewrite (dispatch_delete _ Hd). unfold handleDelete.
  unfold try_catch, bucket_delete, mbind, Promise_bind.
  rewrite (store_call_quiet _ _ Hq). simpl. split; [done|].
  rewrite Hk, Hc, (put_created _ _ Hp H201), delete_insert_eq.
  by apply delete_id.
Qed.

(** X9. A COPY or MOVE with a [Destination] that parses, of a key that
    holds no object, the store answering, is answered 404 and changes
    nothing. *)
Theorem copy_move_missing_source request env d u :
  Request.method request = "COPY" ∨ Request.method request = "MOVE" →
  Request.headers_get request "Destination" = Some d →
  d ≠ "" →
  URL_new d = Normal u →
  R2Bucket.contents (BUCKET env) !! make_resource_path request = None →
  next_fault (BUCKET env) = None →
  (handleWebDAV request env).1 = Response.mk (BodyText "Not Found") 404 [] ∧
  R2Bucket.contents (handleWebDAV request env).2 = R2Bucket.contents (BUCKET env).
Proof.
  intros Hm Hd Hne Hu Hnone Hq. unfold handleWebDAV.
  assert (dispatch request = handleCopy request ∨ dispatch request = handleMove request)
    as [-> | ->].
  { destruct Hm as [Hm|Hm]; [left; by apply dispatch_copy|right; by apply dispatch_move]. }
  all: unfold handleCopy, handleMove; rewrite Hd.
  all: replace (missing (Some d)) with false by (by destruct d).
  all: unfold lift, try_catch, bucket_get, mbind, Promise_bind; simpl default.
  all: rewrite Hu, (store_call_quiet _ _ Hq); simpl; by rewrite Hnone.
Qed.

(** X12. When a MOVE's [get] and [put] go through and its [delete]
    throws, the answer is 500 with the error page, and the bucket is left
    with the copy written at the destination and, for a destination other
    than the source, the source still in place. *)
Theorem move_partial_failure request env A B d u o message rest :
  Request.method request = "MOVE" →
  make_resource_path request = A →
  Request.headers_get request "Destination" = Some d →
  d ≠ "" →
  URL_new d = Normal u →
  make_resource_path (Request_new u) = B →
  R2Bucket.contents (BUCKET env) !! A = Some o →
  R2Bucket.faults (BUCKET env) = None :: None :: Some message :: rest →
  let after := R2Bucket.contents (handleWebDAV request env).2 in
  (handleWebDAV request env).1 =
    Response.mk (BodyText (generateErrorHTML "Error moving file" message)) 500 html_headers ∧
  after = <[B := stored_object B (R2Object.body o) (copy_options o)
                    (R2Bucket.clock (BUCKET env))]> (R2Bucket.contents (BUCKET env)) ∧
  (A ≠ B → after !! A = Some o ∧ ∃ copy, after !! B = Some copy ∧
                                   R2Object.body copy = R2Object.body o).
Proof.
  intros Hm HA Hd Hne Hu HB Ho Hf. unfold handleWebDAV.
  rewrite (dispatch_move _ Hm). unfold handleMove. rewrite Hd.
  replace (missing (Some d)) with false by (by destruct d).
  simpl default. destruct env as [[objs now fs] nm]. simpl in Ho, Hf. subst fs.
  run_handler. rewrite Hu, HA, HB. simpl. rewrite Ho. simpl.
  split; [done|]. split; [done|]. intros Hab.
  rewrite lookup_insert_ne by done. split; [done|].
  eexists. split; [apply lookup_insert_eq|done].
Qed.

(** X11. A COPY whose destination is the source key itself, answered
    201, keeps an object there with the same content, HTTP metadata and
    custom metadata, stamped with the time of the copy, and leaves every
    other key as it was. *)
Theorem copy_onto_itself request env A d u o :
  Request.method request = "COPY" →
  make_resource_path request = A →
  Request.headers_get request "Destination" = Some d →
  URL_new d = Normal u →
  make_resource_path (Request_new u) = A →
  R2Bucket.contents (BUCKET env) !! A = Some o →
  Response.status (handleWebDAV request env).1 = 201 →
  let after := R2Bucket.contents (handleWebDAV request env).2 in
  (∃ copy,
     after !! A = Some copy ∧
     R2Object.body copy = R2Object.body o ∧
     R2Object.httpMetadata copy = R2Object.httpMetadata o ∧
     R2Object.customMetadata copy = R2Object.customMetadata o ∧
     R2Object.uploaded copy = R2Bucket.clock (BUCKET env)) ∧
  (∀ k, k ≠ A → after !! k = R2Bucket.contents (BUCKET env) !! k).
Proof.
  intros Hm HA Hd Hu HB Ho. unfold handleWebDAV.
  rewrite (dispatch_copy _ Hm). unfold handleCopy. rewrite Hd.
  destruct (missing (Some d)); [done|].
  simpl default. destruct env as [[objs now fs] nm]. simpl in Ho.
  run_handler. rewrite Hu, HA, HB.
  destruct fs as [|[m1|] [|[m2|] fs]]; simpl; rewrite ?Ho; simpl;
    try discriminate; intros _.
  all: split; [eexists; split; [apply lookup_insert_eq|done]|].
  all: intros k Hk; by rewrite lookup_insert_ne.
Qed.

(** X13. A PROPFIND whose [Depth] header is anything but ["0"] (absent
    and empty included) is answered 207 with the multistatus of what the
    listing of the key yields, each object mapped by [fromR2Object], also
    when it yields nothing; when the listing throws the answer is 500 with
    an XML content type. *)
Theorem propfind_listing request env :
  Request.method request = "PROPFIND" →
  Request.headers_get request "Depth" ≠ Some "0" →
  let resource_path := make_resource_path request in
  match listAll resource_path (BUCKET env) with
  | (Normal yielded, bucket) =>
      handleWebDAV request env =
        (Response.mk
           (BodyText (generatePropfindResponse resource_path (map fromR2Object yielded)))
           207 xml_headers,
         bucket)
  | (Throw message, bucket) =>
      handleWebDAV request env =
        (Response.mk (BodyText (generateErrorHTML "Error in PROPFIND" message))
           500 xml_headers,
         bucket)
  end.
Proof.
  intros Hm Hd resource_path. unfold handleWebDAV.
  rewrite (dispatch_propfind _ Hm). unfold handlePropfind. fold resource_path.
  rewrite decide_True.
  - run_handler. by destruct (listAll resource_path (BUCKET env)) as [[yielded|message] bucket].
  - destruct (Request.headers_get request "Depth") as [[|c depth]|]; simpl; try done.
    intros Hc. apply Hd. by rewrite Hc.
Qed.


(** X3. With a listing that only reads, the stored objects differ after
    a request only if its method is PUT, DELETE, MKCOL, COPY or MOVE and it
    was answered 201 or 204, or it is a MOVE answered 500 (the copy written
    and the delete failed).  Every other answer leaves the objects as they
    were. *)
Theorem writes_only_on_success request env :
  (∀ prefix, R2Bucket.contents (listAll prefix (BUCKET env)).2 =
             R2Bucket.contents (BUCKET env)) →
  R2Bucket.contents (handleWebDAV request env).2 ≠ R2Bucket.contents (BUCKET env) →
  let method := Request.method request in
  let status := Response.status (handleWebDAV request env).1 in
  method ∈ ["PUT"; "DELETE"; "MKCOL"; "COPY"; "MOVE"] ∧
  (status = 201 ∨ status = 204 ∨ (method = "MOVE" ∧ status = 500)).
Proof.
  intros Hlist. simpl. unfold handleWebDAV, dispatch.
  repeat match goal with
  | |- context [String.eqb ?m ?s] => destruct (String.eqb_spec m s) as [Hm|_]
  end; try rewrite Hm.
  - by intros Hc.
  - unfold handleHead. destruct env as [[objs now fs] nm]. handler_cases; by intros Hc.
  - unfold handleGet, handleDirectory, handleFile. destruct (Js.endsWith _ _).
    + run_handler. specialize (Hlist (make_resource_path request)).
      destruct (listAll _ _) as [[?|?] ?]; simpl in *; by intros Hc.
    + destruct env as [[objs now fs] nm]. handler_cases; by intros Hc.
  - unfold handlePut. destruct env as [[objs now fs] nm].
    handler_cases; intros Hc; try done; (split; [set_solver|by left]).
  - unfold handleDelete. destruct env as [[objs now fs] nm].
    handler_cases; try destruct (not_found_shaped _); simpl; intros Hc; try done;
      (split; [set_solver|by right; left]).
  - unfold handleMkcol. destruct (decide _); [by intros Hc|].
    destruct env as [[objs now fs] nm].
    handler_cases; intros Hc; try done; (split; [set_solver|by left]).
  - unfold handlePropfind. destruct (decide _).
    + run_handler. specialize (Hlist (make_resource_path request)).
      destruct (listAll _ _) as [[?|?] ?]; simpl in *; by intros Hc.
    + destruct env as [[objs now fs] nm].
      handler_cases; try destruct (folderExists _); simpl; by intros Hc.
  - unfold handleCopy. destruct (missing _); [by intros Hc|].
    run_handler. destruct (URL_new _); [|by intros Hc].
    destruct env as [[objs now fs] nm].
    handler_cases; intros Hc; try done; (split; [set_solver|by left]).
  - unfold handleMove. destruct (missing _); [by intros Hc|].
    run_handler. destruct (URL_new _); [|by intros Hc].
    destruct env as [[objs now fs] nm].
    handler_cases; intros Hc; try done; (split; [set_solver|]);
      first [by right; left | by right; right].
  - by intros Hc.
Qed.

(** X4. When the store has no error to throw, the listing does not throw
    on this bucket and a non-empty [Destination] parses, a request is
    answered 500 in exactly two cases: a GET whose URL ends in a slash, and
    a MOVE with a [Destination] whose source key holds an object. *)
Theorem quiet_500_iff request env :
  R2Bucket.faults (BUCKET env) = [] →
  (∀ prefix, ∃ yielded bucket, listAll prefix (BUCKET env) = (Normal yielded, bucket)) →
  (∀ d, Request.headers_get request "Destination" = Some d → d ≠ "" →
        ∃ u, URL_new d = Normal u) →
  Response.status (handleWebDAV request env).1 = 500 ↔
  (Request.method request = "GET" ∧ Js.endsWith (Request.url request) "/" = true) ∨
  (Request.method request = "MOVE" ∧
   missing (Request.headers_get request "Destination") = false ∧
   is_Some (R2Bucket.contents (BUCKET env) !! make_resource_path request)).
Proof.
  intros Hq Hlist Hurl. unfold handleWebDAV, dispatch.
  destruct env as [[objs now fs] nm]. simpl in Hq, Hlist. subst fs. simpl BUCKET.
  assert (∀ m, Request.method request = m → m ≠ "GET" → m ≠ "MOVE" →
            ¬ ((Request.method request = "GET" ∧
                Js.endsWith (Request.url request) "/" = true) ∨
               (Request.method request = "MOVE" ∧
                missing (Request.headers_get request "Destination") = false ∧
                is_Some (objs !! make_resource_path request)))) as Hother.
  { intros m Hm Hg Hv [[Hc _]|[Hc _]]; congruence. }
  repeat match goal with
  | |- context [String.eqb ?m ?s] => destruct (String.eqb_spec m s) as [Hm|?]
  end.
  - split; [done|]. by intros H500%(Hother _ Hm).
  - split; [|by intros H500%(Hother _ Hm)].
    unfold handleHead. handler_cases; done.
  - unfold handleGet, handleDirectory, handleFile.
    destruct (Js.endsWith _ _) eqn:Hu.
    + run_handler. destruct (Hlist (make_resource_path request)) as (ys & b & Hl).
      rewrite Hl. simpl. split; [intros _; by left|done].
    + split; [handler_cases; done|]. intros [[_ Hc]|[Hc _]]; congruence.
  - split; [|by intros H500%(Hother _ Hm)].
    unfold handlePut. handler_cases; done.
  - split; [|by intros H500%(Hother _ Hm)].
    unfold handleDelete. handler_cases; done.
  - split; [|by intros H500%(Hother _ Hm)].
    unfold handleMkcol. destruct (decide _); [done|]. handler_cases; done.
  - split; [|by intros H500%(Hother _ Hm)].
    unfold handlePropfind. destruct (decide _).
    + run_handler. destruct (Hlist (make_resource_path request)) as (ys & b & Hl).
      by rewrite Hl.
    + handler_cases; try destruct (folderExists _); done.
  - split; [|by intros H500%(Hother _ Hm)].
    unfold handleCopy.
    destruct (Request.headers_get request "Destination") as [d|] eqn:Hd; [|done].
    destruct (missing (Some d)) eqn:Hmiss; [done|].
    destruct (Hurl d eq_refl) as [u Hu]; [by intros ->|].
    run_handler. rewrite Hu. handler_cases; done.
  - unfold handleMove.
    destruct (Request.headers_get request "Destination") as [d|] eqn:Hd.
    2:{ simpl. split; [done|]. intros [[Hc _]|(_ & Hc & _)]; congruence. }
    destruct (missing (Some d)) eqn:Hmiss.
    { simpl. split; [done|]. intros [[Hc _]|(_ & Hc & _)]; congruence. }
    destruct (Hurl d eq_refl) as [u Hu]; [by intros ->|].
    run_handler. rewrite Hu. simpl.
    destruct (objs !! make_resource_path request) eqn:Hk; simpl.
    + split; [intros _; right; by eauto|done].
    + split; [done|]. intros [[Hc _]|(_ & _ & [? Hc])]; congruence.
  - split; [done|]. intros [[Hc _]|[Hc _]]; congruence.
Qed.

(** X14. A MKCOL is answered 405 exactly when its key is the root; at the
    root the store is not called and the bucket is left as it was. *)
Theorem mkcol_405_iff_root request env :
  Request.method request = "MKCOL" →
  (Response.status (handleWebDAV request env).1 = 405 ↔ make_resource_path request = "") ∧
  (make_resource_path request = "" →
   handleWebDAV request env =
     (Response.mk (BodyText "Method Not Allowed") 405 [], BUCKET env)).
Proof.
  intros Hm. unfold handleWebDAV. rewrite (dispatch_mkcol _ Hm). unfold handleMkcol.
  destruct (decide (make_resource_path request = "")) as [He|Hne].
  - done.
  - split; [|done]. split; [|done].
    destruct env as [[objs now fs] nm]. handler_cases; done.
Qed.

Lemma startsWith_app s t : Js.startsWith (s ++ t) s = true.
Proof.
  unfold Js.startsWith. induction s as [|c s IH]; simpl; [by destruct t|].
  by destruct (ascii_dec c c).
Qed.

Lemma startsWith_app_l k s t : Js.startsWith k (s ++ t) = true → Js.startsWith k s = true.
Proof.
  unfold Js.startsWith. revert k. induction s as [|c s IH]; intros k; simpl.
  - by destruct k.
  - destruct k as [|c' k]; simpl; [done|]. destruct (ascii_dec c c'); [apply IH|done].
Qed.

(** X16. After a MKCOL of a non-empty key answered 201, a PROPFIND of
    that key with [Depth: 0] on the bucket so left, its store call going
    through, is answered 207 with the multistatus of the one made-up
    collection entry for the key. *)
Theorem mkcol_then_propfind0 mkcol propfind env env' K :
  Request.method mkcol = "MKCOL" →
  make_resource_path mkcol = K →
  K ≠ "" →
  Response.status (handleWebDAV mkcol env).1 = 201 →
  Request.method propfind = "PROPFIND" →
  Request.headers_get propfind "Depth" = Some "0" →
  make_resource_path propfind = K →
  R2Bucket.contents (BUCKET env') = R2Bucket.contents (handleWebDAV mkcol env).2 →
  next_fault (BUCKET env') = None →
  (handleWebDAV propfind env').1 =
    Response.mk
      (BodyText
         (generatePropfindResponse K
            [{| props_displayname := Js.or_else (Js.split_pop K) K;
                creationdate := toUTCString (R2Bucket.clock (BUCKET env'));
                getcontentlength := "0";
                getcontenttype := "";
                getetag := (Js.dquote ++ "implicit-folder-" ++ K ++ Js.dquote)%string;
                getlastmodified := toUTCString (R2Bucket.clock (BUCKET env'));
                resourcetype := "collection" |}]))
      207 [("Content-Type", "application/xml; charset=utf-8")].
Proof.
  intros Hm HK Hne H201 Hp Hd HK' Hc Hq. subst K.
  pose proof (propfind_depth0_answer _ _ Hp Hd Hq) as Hanswer. cbv zeta in Hanswer.
  rewrite HK' in *. rewrite Hanswer.
  rewrite (proj2 (probe_finds _ _)); [done|].
  assert (is_Some (R2Bucket.contents (BUCKET env')
                     !! markerFileKey (make_resource_path mkcol))) as [marker Hk].
  { rewrite Hc, (mkcol_created _ _ Hm Hne H201).
    destruct (R2Bucket.contents (BUCKET env) !! _) eqn:Hk; [by rewrite Hk|].
    rewrite lookup_insert_eq. by eexists. }
  exists (markerFileKey (make_resource_path mkcol)), marker. split; [done|].
  unfold markerFileKey, normalizedPath.
  destruct (Js.endsWith _ _); [apply startsWith_app|].
  apply (startsWith_app_l _ _ "/"), startsWith_app.
Qed.

(** X15. Whatever its outcome, a MKCOL leaves every object already
    stored as it was, an older marker included. *)
Theorem mkcol_never_overwrites request env k o :
  Request.method request = "MKCOL" →
  R2Bucket.contents (BUCKET env) !! k = Some o →
  R2Bucket.contents (handleWebDAV request env).2 !! k = Some o.
Proof.
  intros Hm Hk. unfold handleWebDAV. rewrite (dispatch_mkcol _ Hm). unfold handleMkcol.
  destruct (decide _); [done|]. destruct env as [[objs now fs] nm]. simpl in Hk.
  handler_cases; try done.
  all: rewrite lookup_insert_ne; [done|]; intros <-; congruence.
Qed.


Lemma startsWith_refl s : Js.startsWith s s = true.
Proof.
  unfold Js.startsWith. induction s as [|c s IH]; simpl; [done|].
  by destruct (ascii_dec c c).
Qed.

(** What one round of the loop amounts to on the objects: nothing, or a
    marker put at a key that held nothing. *)
Lemma ensure_parents_round parentPath part rest bucket :
  let here := (parentPath ++ part ++ "/" ++ "_$folder$")%string in
  (∃ next,
     ensure_parents parentPath (part :: rest) bucket =
       ensure_parents here rest next ∧
     (R2Bucket.contents next = R2Bucket.contents bucket ∨
      (R2Bucket.contents bucket !! here = None ∧
       R2Bucket.contents next =
         <[here := stored_object here [] marker_options (R2Bucket.clock bucket)]>
           (R2Bucket.contents bucket)))) ∨
    R2Bucket.contents (ensure_parents parentPath (part :: rest) bucket).2 =
      R2Bucket.contents bucket.
Proof.
  intros here. destruct bucket as [objs now fs].
  change (ensure_parents parentPath (part :: rest)) with
    (exists_ ← bucket_head here;
     _ ← match exists_ with
         | Some _ => mret tt
         | None => bucket_put here [] marker_options
         end;
     ensure_parents here rest).
  run_handler.
  destruct fs as [|[m1|] fs]; simpl; try (by right).
  all: destruct (objs !! here) eqn:Hp; simpl; [left; eexists; split; [done|by left]|].
  all: try destruct fs as [|[m2|] fs]; simpl; try (by right).
  all: left; eexists; split; [done|right; done].
Qed.

Lemma ensure_parents_keeps parentPath parts bucket k o :
  R2Bucket.contents bucket !! k = Some o →
  R2Bucket.contents (ensure_parents parentPath parts bucket).2 !! k = Some o.
Proof.
  revert parentPath bucket. induction parts as [|part rest IH]; intros parentPath bucket Hk.
  - done.
  - destruct (ensure_parents_round parentPath part rest bucket)
      as [(next & -> & Hnext)| ->]; [|done].
    apply IH. destruct Hnext as [->|[Hnone ->]]; [done|].
    rewrite lookup_insert_ne; [done|]. intros <-. congruence.
Qed.

Lemma ensure_parents_writes parentPath part rest bucket k :
  R2Bucket.contents (ensure_parents parentPath (part :: rest) bucket).2 !! k =
    R2Bucket.contents bucket !! k ∨
  (Js.startsWith k (parentPath ++ part ++ "/" ++ "_$folder$")%string = true ∧
   R2Bucket.contents bucket !! k = None).
Proof.
  revert parentPath part bucket.
  assert (∀ here (next bucket : R2Bucket),
            R2Bucket.contents next = R2Bucket.contents bucket ∨
            (R2Bucket.contents bucket !! here = None ∧
             R2Bucket.contents next =
               <[here := stored_object here [] marker_options (R2Bucket.clock bucket)]>
                 (R2Bucket.contents bucket)) →
            R2Bucket.contents next !! k = R2Bucket.contents bucket !! k ∨
            (k = here ∧ R2Bucket.contents bucket !! k = None)) as Hround.
  { intros here next bucket [->|[Hnone ->]]; [by left|].
    destruct (decide (k = here)) as [->|Hne];
      [by right|left; by rewrite lookup_insert_ne]. }
  induction rest as [|following rest IH]; intros parentPath part bucket.
  - destruct (ensure_parents_round parentPath part [] bucket)
      as [(next & Hrun & Hnext)|Hsame]; [rewrite Hrun|by (left; rewrite Hsame)].
    simpl. destruct (Hround _ _ _ Hnext) as [Hk|[-> Hk]]; [by left|].
    right. split; [apply startsWith_refl|done].
  - destruct (ensure_parents_round parentPath part (following :: rest) bucket)
      as [(next & Hrun & Hnext)|Hsame]; [rewrite Hrun|by (left; rewrite Hsame)].
    destruct (Hround _ _ _ Hnext) as [Hk|[Hhere Hk]];
      destruct (IH (parentPath ++ part ++ "/" ++ "_$folder$")%string following next)
        as [Hsame|[Hpre Hnone]].
    + left. by rewrite Hsame.
    + right. split; [by apply startsWith_app_l in Hpre|by rewrite <- Hk].
    + rewrite Hsame. subst k. right. split; [apply startsWith_refl|done].
    + right. split; [by apply startsWith_app_l in Hpre|done].
Qed.

(** X17. [ensureParentDirectories] leaves every object already stored
    as it was, whatever the path and whatever the store throws. *)
Theorem ensureParentDirectories_only_adds path bucket k o :
  R2Bucket.contents bucket !! k = Some o →
  R2Bucket.contents (ensureParentDirectories path bucket).2 !! k = Some o.
Proof.
  intros Hk. unfold ensureParentDirectories.
  destruct (_ <=? _)%nat; [done|]. by apply ensure_parents_keeps.
Qed.

(** X18. [ensureParentDirectories] changes the bucket only for a path of
    at least two non-empty parts, and then only at keys that held nothing
    and start with the first part followed by [/_$folder$]: the running
    path it builds keeps the marker name of each round. *)
Theorem ensureParentDirectories_writes path bucket k :
  R2Bucket.contents (ensureParentDirectories path bucket).2 !! k ≠
    R2Bucket.contents bucket !! k →
  ∃ first second rest,
    path_parts path = first :: second :: rest ∧
    Js.startsWith k (first ++ "/_$folder$")%string = true ∧
    R2Bucket.contents bucket !! k = None.
Proof.
  unfold ensureParentDirectories.
  destruct (path_parts path) as [|first [|second rest]] eqn:Hparts; try done.
  change (ensure_parents "" (take _ _)) with
    (ensure_parents "" (first :: take (length rest) (second :: rest))).
  cbn [length Nat.leb]. intros Hchanged. exists first, second, rest. split; [done|].
  destruct (ensure_parents_writes "" first (take (length rest) (second :: rest)) bucket k)
    as [Hsame|Hnew]; done.
Qed.

(** With the store answering, a round leaves a marker or an older object
    at its key. *)
Lemma ensure_parents_round_quiet parentPath part rest bucket :
  R2Bucket.faults bucket = [] →
  let here := (parentPath ++ part ++ "/" ++ "_$folder$")%string in
  ∃ next,
    ensure_parents parentPath (part :: rest) bucket = ensure_parents here rest next ∧
    R2Bucket.faults next = [] ∧
    is_Some (R2Bucket.contents next !! here).
Proof.
  intros Hq here. destruct bucket as [objs now fs]. simpl in Hq. subst fs.
  change (ensure_parents parentPath (part :: rest)) with
    (exists_ ← bucket_head here;
     _ ← match exists_ with
         | Some _ => mret tt
         | None => bucket_put here [] marker_options
         end;
     ensure_parents here rest).
  run_handler. destruct (objs !! here) eqn:Hp; simpl.
  - eexists. split; [done|]. split; [done|]. simpl. by rewrite Hp.
  - eexists. split; [done|]. split; [done|]. simpl. rewrite lookup_insert_eq. by eexists.
Qed.

(** X19. For a path of at least three non-empty parts and a store that
    answers, [ensureParentDirectories] leaves an object at the first part
    followed by [/_$folder$], and one at that key followed by the second
    part and [/_$folder$]. *)
Theorem ensureParentDirectories_markers path bucket first second third rest :
  R2Bucket.faults bucket = [] →
  path_parts path = first :: second :: third :: rest →
  let after := R2Bucket.contents (ensureParentDirectories path bucket).2 in
  is_Some (after !! (first ++ "/_$folder$")%string) ∧
  is_Some (after !! ((first ++ "/_$folder$") ++ second ++ "/_$folder$")%string).
Proof.
  intros Hq Hparts. unfold ensureParentDirectories. rewrite Hparts.
  change (ensure_parents "" (take _ _)) with
    (ensure_parents ""
       (first :: second :: take (length rest) (third :: rest))).
  cbn [length Nat.leb].
  destruct (ensure_parents_round_quiet "" first
              (second :: take (length rest) (third :: rest)) bucket Hq)
    as (next1 & -> & Hq1 & [m1 Hm1]).
  destruct (ensure_parents_round_quiet ("" ++ first ++ "/" ++ "_$folder$") second
              (take (length rest) (third :: rest)) next1 Hq1)
    as (next2 & Hrun2 & Hq2 & [m2 Hm2]).
  pose proof (ensure_parents_keeps ("" ++ first ++ "/" ++ "_$folder$") 
                (second :: take (length rest) (third :: rest)) next1 _ _ Hm1) as Hfirst.
  rewrite Hrun2 in *. cbv zeta. split; [by eexists|].
  eexists. by apply ensure_parents_keeps.
Qed.


(** X8. Whatever its outcome, a PUT or a DELETE leaves every key other
    than its own as it was. *)
Theorem put_delete_frame request env k :
  Request.method request = "PUT" ∨ Request.method request = "DELETE" →
  k ≠ make_resource_path request →
  R2Bucket.contents (handleWebDAV request env).2 !! k =
    R2Bucket.contents (BUCKET env) !! k.
Proof.
  intros Hm Hk. unfold handleWebDAV. destruct env as [[objs now fs] nm].
  destruct Hm as [Hm|Hm].
  - rewrite (dispatch_put _ Hm). unfold handlePut. handler_cases; try done.
    all: by rewrite lookup_insert_ne.
  - rewrite (dispatch_delete _ Hm). unfold handleDelete.
    handler_cases; try destruct (not_found_shaped _); simpl; try done.
    all: by rewrite lookup_delete_ne.
Qed.

(** X10. Whatever its outcome, a COPY leaves every key other than the
    destination as it was, and a MOVE every key other than the source and
    the destination. *)
Theorem copy_move_frame request env d u k :
  Request.method request = "COPY" ∨ Request.method request = "MOVE" →
  Request.headers_get request "Destination" = Some d →
  URL_new d = Normal u →
  k ≠ make_resource_path (Request_new u) →
  Request.method request = "COPY" ∨ k ≠ make_resource_path request →
  R2Bucket.contents (handleWebDAV request env).2 !! k =
    R2Bucket.contents (BUCKET env) !! k.
Proof.
  intros Hm Hd Hu HB HA. unfold handleWebDAV. destruct env as [[objs now fs] nm].
  destruct Hm as [Hm|Hm].
  - rewrite (dispatch_copy _ Hm). unfold handleCopy. rewrite Hd.
    destruct (missing _); [done|]. run_handler. rewrite Hu.
    handler_cases; try done. all: by rewrite lookup_insert_ne.
  - destruct HA as [HA|HA]; [congruence|].
    rewrite (dispatch_move _ Hm). unfold handleMove. rewrite Hd.
    destruct (missing _); [done|]. run_handler. rewrite Hu.
    handler_cases; try done.
    all: rewrite ?lookup_delete_ne by done; by rewrite lookup_insert_ne.
Qed.

End Further.

(** ** The further properties on concrete requests *)

Section FurtherExamples.

Import Scenario.
#[local] Existing Instance SpecUtils.runtime.
#[local] Existing Instance SpecUtils.utils.

(** X1 at a LOCK request. *)
Lemma unsupported_method_witness :
  Response.status (serve (request "LOCK" "/a/b.txt" [] []) (env_with [file "a/b.txt" hi])).1
  = 405.
Proof.
  unshelve epose proof
    (unsupported_method (request "LOCK" "/a/b.txt" [] []) (env_with [file "a/b.txt" hi]) _)
    as Hanswer.
  { apply (bool_decide_unpack _). vm_compute. exact I. }
  unfold serve. by rewrite Hanswer.
Defined.

(** X2 at a PUT. *)
Lemma status_table_witness :
  Response.status (serve (request "PUT" "/a/b.txt" [] hi) (env_with [])).1 ∈ [201; 500].
Proof.
  destruct (status_table (request "PUT" "/a/b.txt" [] hi) (env_with []))
    as (_ & _ & _ & Hput & _).
  apply Hput. reflexivity.
Defined.

(** X3 at a PUT of a new key: the objects change, and the answer is 201. *)
Lemma writes_only_on_success_witness :
  Response.status (serve (request "PUT" "/a/b.txt" [] hi) (env_with [])).1 = 201 ∨
  Response.status (serve (request "PUT" "/a/b.txt" [] hi) (env_with [])).1 = 204 ∨
  Request.method (request "PUT" "/a/b.txt" [] hi) = "MOVE" ∧
  Response.status (serve (request "PUT" "/a/b.txt" [] hi) (env_with [])).1 = 500.
Proof.
  unshelve epose proof
    (writes_only_on_success (request "PUT" "/a/b.txt" [] hi) (env_with []) _ _)
    as [_ Hstatus].
  - intros prefix. reflexivity.
  - intros Hsame.
    assert (R2Bucket.contents (handleWebDAV (request "PUT" "/a/b.txt" [] hi) (env_with [])).2
              !! "a/b.txt" = None) as Hnone by (rewrite Hsame; reflexivity).
    vm_compute in Hnone. discriminate Hnone.
  - exact Hstatus.
Defined.

(** X4 at a MOVE of a stored object on a store that has nothing to
    throw: it is answered 500. *)
Lemma quiet_500_iff_witness :
  Response.status
    (serve (move "/a/b.txt" "http://dav.example/a/d.txt") (env_with [file "a/b.txt" hi])).1
  = 500.
Proof.
  unshelve epose proof
    (quiet_500_iff (move "/a/b.txt" "http://dav.example/a/d.txt")
       (env_with [file "a/b.txt" hi]) _ _ _) as Hiff.
  - reflexivity.
  - intros prefix. eexists _, _. reflexivity.
  - intros d Hd _. vm_compute in Hd. injection Hd as <-. eexists. reflexivity.
  - apply Hiff. right. split; [reflexivity|]. split; [reflexivity|].
    exists (file "a/b.txt" hi). reflexivity.
Defined.

(** X4, the other direction: a COPY on the same store is not answered
    500. *)
Example quiet_copy_not_500 :
  Response.status
    (serve (copy "/a/b.txt" "http://dav.example/a/c.txt") (env_with [file "a/b.txt" hi])).1
  = 201.
Proof. reflexivity. Qed.

(** X5 at HEAD and GET of a key that holds nothing: same status, and only
    GET's response has a content type. *)
Lemma head_matches_get_witness :
  Response.status (serve (request "HEAD" "/none.txt" [] []) (env_with [])).1 =
    Response.status (serve (get "/none.txt") (env_with [])).1 ∧
  Response.sent_headers (serve (request "HEAD" "/none.txt" [] []) (env_with [])).1 = [] ∧
  Response.sent_headers (serve (get "/none.txt") (env_with [])).1 =
    [("Content-Type", "text/plain;charset=UTF-8")].
Proof.
  unshelve epose proof
    (head_matches_get (request "HEAD" "/none.txt" [] []) (get "/none.txt")
       (env_with []) _ _ _ _) as (Hstatus & _ & _ & Hmissing & _); [computes..|].
  split; [exact Hstatus|]. apply Hmissing. reflexivity.
Defined.

(** X5 at HEAD and GET of a stored file: the same headers. *)
Example head_get_same_headers :
  Response.sent_headers
    (serve (request "HEAD" "/a/b.txt" [] []) (env_with [file "a/b.txt" hi])).1 =
  Response.sent_headers (serve (get "/a/b.txt") (env_with [file "a/b.txt" hi])).1.
Proof. reflexivity. Qed.

(** X6 at a PUT of ["hi"] without a content type. *)
Lemma put_get_roundtrip_witness :
  (serve (get "/a/b.txt") (after (request "PUT" "/a/b.txt" [] hi) (env_with []))).1 =
    Response.mk (BodyStream hi) 200
      [("Content-Type", "application/octet-stream"); ("Content-Length", "2");
       ("ETag", "2"); ("Last-Modified", "0")].
Proof.
  unshelve epose proof
    (put_get_roundtrip (request "PUT" "/a/b.txt" [] hi) (get "/a/b.txt") (env_with [])
       (after (request "PUT" "/a/b.txt" [] hi) (env_with [])) _ _ _ _ _ _ _) as Hget;
    [computes..|].
  unfold serve at 1. rewrite Hget. reflexivity.
Defined.

(** X7 at a PUT and a DELETE of a key beside an older object. *)
Lemma put_delete_restores_witness :
  R2Bucket.contents
    (serve (delete_ "/a/c.txt")
       (after (request "PUT" "/a/c.txt" [] hi) (env_with [file "a/b.txt" hi]))).2 =
  R2Bucket.contents (BUCKET (env_with [file "a/b.txt" hi])).
Proof.
  unshelve epose proof
    (put_delete_restores (request "PUT" "/a/c.txt" [] hi) (delete_ "/a/c.txt")
       (env_with [file "a/b.txt" hi])
       (after (request "PUT" "/a/c.txt" [] hi) (env_with [file "a/b.txt" hi]))
       _ _ _ _ _ _ _) as [_ Hsame]; [computes..|].
  exact Hsame.
Defined.

(** X8 at a DELETE beside another object. *)
Lemma put_delete_frame_witness :
  R2Bucket.contents
    (serve (delete_ "/a/c.txt") (env_with [file "a/b.txt" hi; file "a/c.txt" hi])).2
    !! "a/b.txt" = Some (file "a/b.txt" hi).
Proof.
  unshelve epose proof
    (put_delete_frame (delete_ "/a/c.txt") (env_with [file "a/b.txt" hi; file "a/c.txt" hi])
       "a/b.txt" (or_intror eq_refl) _) as Hframe; [computes|].
  unfold serve. rewrite Hframe. reflexivity.
Defined.

(** X9 at a MOVE of a key that holds nothing. *)
Lemma copy_move_missing_source_witness :
  (serve (move "/nothing.txt" "http://dav.example/a/c.txt")
     (env_with [file "a/b.txt" hi])).1 = Response.mk (BodyText "Not Found") 404 [].
Proof.
  unshelve epose proof
    (copy_move_missing_source (move "/nothing.txt" "http://dav.example/a/c.txt")
       (env_with [file "a/b.txt" hi]) "http://dav.example/a/c.txt"
       "http://dav.example/a/c.txt" (or_intror eq_refl) _ _ _ _ _) as [Hanswer _];
    [computes..|].
  exact Hanswer.
Defined.

(** X10 at a MOVE beside a third object. *)
Lemma copy_move_frame_witness :
  R2Bucket.contents
    (serve (move "/a/b.txt" "http://dav.example/a/d.txt")
       (env_with [file "a/b.txt" hi; file "z.txt" hi])).2 !! "z.txt" =
  Some (file "z.txt" hi).
Proof.
  unshelve epose proof
    (copy_move_frame (move "/a/b.txt" "http://dav.example/a/d.txt")
       (env_with [file "a/b.txt" hi; file "z.txt" hi]) "http://dav.example/a/d.txt"
       "http://dav.example/a/d.txt" "z.txt" (or_intror eq_refl) _ _ _ (or_intror _))
    as Hframe; [computes..|].
  unfold serve. rewrite Hframe. reflexivity.
Defined.

(** X11 at a COPY of [a/b.txt] onto itself. *)
Lemma copy_onto_itself_witness :
  ∃ copied,
    R2Bucket.contents
      (serve (copy "/a/b.txt" "http://dav.example/a/b.txt")
         (env_with [file "a/b.txt" hi])).2 !! "a/b.txt" = Some copied ∧
    R2Object.body copied = hi.
Proof.
  unshelve epose proof
    (copy_onto_itself (copy "/a/b.txt" "http://dav.example/a/b.txt")
       (env_with [file "a/b.txt" hi]) "a/b.txt" "http://dav.example/a/b.txt"
       "http://dav.example/a/b.txt" (file "a/b.txt" hi) _ _ _ _ _ _ _)
    as [(copied & Hcopy & Hbody & _) _]; [computes..|].
  by exists copied.
Defined.

(** X12 at a MOVE whose delete fails: both keys hold the content. *)
Lemma move_partial_failure_witness :
  Response.status
    (serve (move "/a/b.txt" "http://dav.example/a/d.txt") env_failing_third).1 = 500 ∧
  R2Bucket.contents
    (serve (move "/a/b.txt" "http://dav.example/a/d.txt") env_failing_third).2
    !! "a/b.txt" = Some (file "a/b.txt" hi) ∧
  is_Some
    (R2Bucket.contents
       (serve (move "/a/b.txt" "http://dav.example/a/d.txt") env_failing_third).2
       !! "a/d.txt").
Proof.
  unshelve epose proof
    (move_partial_failure (move "/a/b.txt" "http://dav.example/a/d.txt")
       env_failing_third "a/b.txt" "a/d.txt" "http://dav.example/a/d.txt"
       "http://dav.example/a/d.txt" (file "a/b.txt" hi) "backend unavailable" []
       _ _ _ _ _ _ _ _) as (Hanswer & _ & Hboth); [computes..|].
  destruct Hboth as (Hsource & copied & Hcopy & _); [computes|].
  unfold serve. split; [by rewrite Hanswer|]. split; [exact Hsource|by exists copied].
Defined.

(** X13 at a PROPFIND without [Depth] of a key under which nothing is
    stored: 207, with no entry. *)
Lemma propfind_listing_witness :
  (serve (request "PROPFIND" "/empty" [] []) (env_with [file "a/b.txt" hi])).1 =
    Response.mk (BodyText (generatePropfindResponse "empty" [])) 207 xml_headers.
Proof.
  unshelve epose proof
    (propfind_listing (request "PROPFIND" "/empty" [] []) (env_with [file "a/b.txt" hi])
       _ _) as Hanswer; [computes..|].
  cbv zeta in Hanswer.
  assert (listAll (make_resource_path (request "PROPFIND" "/empty" [] []))
            (BUCKET (env_with [file "a/b.txt" hi]))
          = (Normal [], bucket_with [file "a/b.txt" hi])) as Hl
    by (vm_compute; reflexivity).
  rewrite Hl in Hanswer. unfold serve. by rewrite Hanswer.
Defined.

(** X14 at a MKCOL of the root. *)
Lemma mkcol_405_iff_root_witness :
  serve (mkcol "/") (env_with []) =
    (Response.mk (BodyText "Method Not Allowed") 405 [], bucket_with []).
Proof.
  unshelve epose proof (mkcol_405_iff_root (mkcol "/") (env_with []) _) as [_ Hroot];
    [computes|].
  apply Hroot. reflexivity.
Defined.

(** X15 at a MKCOL beside a stored file. *)
Lemma mkcol_never_overwrites_witness :
  R2Bucket.contents (serve (mkcol "/a/") (env_with [file "a/b.txt" hi])).2 !! "a/b.txt" =
  Some (file "a/b.txt" hi).
Proof.
  apply (mkcol_never_overwrites (mkcol "/a/") (env_with [file "a/b.txt" hi])); computes.
Defined.

(** X16 at MKCOL [/x/] on an empty bucket, then PROPFIND [/x]. *)
Lemma mkcol_then_propfind0_witness :
  Response.status (serve (propfind0 "/x") (after (mkcol "/x/") (env_with []))).1 = 207.
Proof.
  unshelve epose proof
    (mkcol_then_propfind0 (mkcol "/x/") (propfind0 "/x") (env_with [])
       (after (mkcol "/x/") (env_with [])) "x" _ _ _ _ _ _ _ _ _) as Hanswer;
    [computes..|].
  unfold serve at 1. by rewrite Hanswer.
Defined.

(** X17 on the path [a/b/c/] beside a stored file. *)
Lemma ensureParentDirectories_only_adds_witness :
  R2Bucket.contents (ensureParentDirectories "a/b/c/" (bucket_with [file "a/b.txt" hi])).2
    !! "a/b.txt" = Some (file "a/b.txt" hi).
Proof. apply ensureParentDirectories_only_adds. computes. Defined.

(** X18 on the path [a/b/c/]: the key [a/_$folder$b/_$folder$] is new. *)
Lemma ensureParentDirectories_writes_witness :
  Js.startsWith "a/_$folder$b/_$folder$" "a/_$folder$" = true ∧
  R2Bucket.contents (bucket_with []) !! "a/_$folder$b/_$folder$" = None.
Proof.
  unshelve epose proof
    (ensureParentDirectories_writes "a/b/c/" (bucket_with []) "a/_$folder$b/_$folder$" _)
    as (first & second & rest & Hparts & Hprefix & Hnone); [computes|].
  vm_compute in Hparts. injection Hparts as <- _ _. split; [exact Hprefix|exact Hnone].
Defined.

(** X19 on the path [a/b/c/]. *)
Lemma ensureParentDirectories_markers_witness :
  is_Some (R2Bucket.contents (ensureParentDirectories "a/b/c/" (bucket_with [])).2
             !! "a/_$folder$") ∧
  is_Some (R2Bucket.contents (ensureParentDirectories "a/b/c/" (bucket_with [])).2
             !! "a/_$folder$b/_$folder$").
Proof.
  apply (ensureParentDirectories_markers "a/b/c/" (bucket_with []) "a" "b" "c" []);
    reflexivity.
Defined.

End FurtherExamples.
